(** * train_yolo_v8_classification: the parameter object and the training task

    A shallow embedding of [train_yolo_v8_classification_process.py]:
    the configuration dictionary of [TrainYoloV8ClassificationParam]
    ([__init__], [set_values]) and the method [run] of
    [TrainYoloV8Classification].

    Python values are a small universe [PyVal]; dictionaries with string keys
    are [gmap string PyVal]; exceptions are results [Raise e]; the methods
    that mutate [self] or the outside world are written in a state and
    exception monad, statement by statement as in the source. *)

From Stdlib Require Import ZArith Floats String Ascii List.
From stdpp Require Import gmap strings list pretty.

Local Open Scope string_scope.
Set Warnings "-register-all,-inexact-float,-clear-no-such-hyp".

(** ** Python values, exceptions, results *)

Inductive PyVal : Type :=
| VNone
| VBool (b : bool)
| VInt (z : Z)
| VFloat (f : float)
| VStr (s : string)
| VDevice (kind : string)
| VList (items : list PyVal)
| VDict (items : list (PyVal * PyVal)).

Inductive PyExc : Type :=
| KeyError (key : string)
| TypeError
| ValueError
| OverflowError
| AttributeError
| UnboundLocalError (name : string)
| FileNotFoundError
| FileExistsError
| LibraryError (what : string).

Inductive Result (A : Type) : Type :=
| Ok (a : A)
| Raise (e : PyExc).

Arguments Ok {A} a.
Arguments Raise {A} e.

Global Instance Result_ret : MRet Result := fun A a => Ok a.

Global Instance Result_bind : MBind Result := fun A B f r =>
  match r with
  | Ok a => f a
  | Raise e => Raise e
  end.

(** The type a value has at run time ([type(v)]). *)
Inductive PyType : Type :=
| TNone | TBool | TInt | TFloat | TStr | TDevice | TList | TDict.

Definition type_of (v : PyVal) : PyType :=
  match v with
  | VNone => TNone
  | VBool _ => TBool
  | VInt _ => TInt
  | VFloat _ => TFloat
  | VStr _ => TStr
  | VDevice _ => TDevice
  | VList _ => TList
  | VDict _ => TDict
  end.

Global Instance PyType_eq_dec : EqDecision PyType.
Proof. solve_decision. Defined.

(** ** The builtins the source calls *)

Module Py.

(** [bool(v)], the test of an [if]. *)
Definition truthy (v : PyVal) : bool :=
  match v with
  | VNone => false
  | VBool b => b
  | VInt z => negb (z =? 0)%Z
  | VFloat f => negb (PrimFloat.eqb f 0%float)
  | VStr s => match s with EmptyString => false | String _ _ => true end
  | VDevice _ => true
  | VList l => match l with [] => false | _ :: _ => true end
  | VDict l => match l with [] => false | _ :: _ => true end
  end.

(** The interpreter's limit on the conversions between [int] and [str]
    ([sys.get_int_max_str_digits()]; 0 when there is none, as in the
    interpreters that have no such limit): a conversion of [n] digits raises
    [ValueError] when [n] is above 640, a limit is set and [n] exceeds it. *)
Definition too_many_digits (limit n : nat) : bool :=
  ((640 <? n) && (0 <? limit) && (limit <? n))%nat.

(** The number of decimal digits of an integer, its sign left out. *)
Definition decimal_digits (z : Z) : nat := String.length (pretty (Z.abs z)).

(** [str(v)].  The text of a float or of a container is produced by the
    interpreter's [repr]; it is a parameter [repr], which raises where the
    interpreter does (an integer beyond the digit limit inside a list, a
    container nested too deeply).  An integer beyond the digit limit has no
    text. *)
Definition str (limit : nat) (repr : PyVal -> Result string) (v : PyVal)
  : Result string :=
  match v with
  | VStr s => Ok s
  | VNone => Ok "None"
  | VBool true => Ok "True"
  | VBool false => Ok "False"
  | VInt z =>
      if too_many_digits limit (decimal_digits z) then Raise ValueError
      else Ok (pretty z)
  | VDevice k => Ok k
  | VFloat _ | VList _ | VDict _ => repr v
  end.

(** White space as [int] skips it around an ASCII string: tab, line feed,
    vertical tab, form feed, carriage return and space. *)
Definition is_space (c : ascii) : bool :=
  let n := nat_of_ascii c in
  (((9 <=? n) && (n <=? 13)) || (n =? 32))%nat.

Definition digit_val (c : ascii) : option Z :=
  let n := nat_of_ascii c in
  if ((48 <=? n) && (n <=? 57))%nat then Some (Z.of_nat n - 48)%Z else None.

Fixpoint lstrip (cs : list ascii) : list ascii :=
  match cs with
  | c :: cs' => if is_space c then lstrip cs' else cs
  | [] => []
  end.

Definition strip (cs : list ascii) : list ascii :=
  rev (lstrip (rev (lstrip cs))).

(** Decimal digits, single underscores allowed between two digits. *)
Fixpoint parse_digits (acc : Z) (after_digit : bool) (cs : list ascii)
  : option Z :=
  match cs with
  | [] => if after_digit then Some acc else None
  | c :: cs' =>
      if Ascii.eqb c "_"%char
      then (if after_digit then parse_digits acc false cs' else None)
      else match digit_val c with
           | Some d => parse_digits (acc * 10 + d)%Z true cs'
           | None => None
           end
  end.

(** The digits of a literal: its characters other than underscores. *)
Definition count_digits (cs : list ascii) : nat :=
  length (List.filter (fun c => negb (Ascii.eqb c "_"%char)) cs).

(** The digits of a literal after its sign: well formed, and no more of them
    than the interpreter's limit allows. *)
Definition parse_literal (limit : nat) (cs : list ascii) : option Z :=
  match parse_digits 0 false cs with
  | Some z => if too_many_digits limit (count_digits cs) then None else Some z
  | None => None
  end.

(** [int(s)] for a string, base 10: surrounding white space, an optional
    sign, then the digits, [None] where [int] raises [ValueError]. Strings
    are byte strings here; the decimal digits and spaces of Unicode beyond
    ASCII are not modelled. *)
Definition int_of_string (limit : nat) (s : string) : option Z :=
  match strip (list_ascii_of_string s) with
  | "+"%char :: cs => parse_literal limit cs
  | "-"%char :: cs => Z.opp <$> parse_literal limit cs
  | cs => parse_literal limit cs
  end.

(** [int(f)] for a float: truncation towards zero. *)
Definition int_of_float (f : float) : Result Z :=
  match Prim2SF f with
  | S754_zero _ => Ok 0%Z
  | S754_finite s m e =>
      let a := if (0 <=? e)%Z then (Zpos m * 2 ^ e)%Z
               else (Zpos m / 2 ^ (- e))%Z in
      Ok (if s then (- a)%Z else a)
  | S754_infinity _ => Raise OverflowError
  | S754_nan => Raise ValueError
  end.

(** [int(v)]. *)
Definition int (limit : nat) (v : PyVal) : Result PyVal :=
  match v with
  | VInt z => Ok (VInt z)
  | VBool b => Ok (VInt (if b then 1 else 0)%Z)
  | VFloat f =>
      match int_of_float f with
      | Ok z => Ok (VInt z)
      | Raise e => Raise e
      end
  | VStr s =>
      match int_of_string limit s with
      | Some z => Ok (VInt z)
      | None => Raise ValueError
      end
  | VNone | VDevice _ | VList _ | VDict _ => Raise TypeError
  end.

(** [float(z)] for an integer: the nearest binary64 number, ties to even. *)
Definition float_of_Z (z : Z) : Result float :=
  match binary_normalize prec emax z 0 false with
  | S754_infinity _ => Raise OverflowError
  | sf => Ok (SF2Prim sf)
  end.

(** [float(v)].  Reading a float from a string is the interpreter's
    correctly rounded parser; it is a parameter [parse]. *)
Definition float (parse : string -> option PrimFloat.float) (v : PyVal)
  : Result PyVal :=
  match v with
  | VFloat f => Ok (VFloat f)
  | VInt z =>
      match float_of_Z z with
      | Ok f => Ok (VFloat f)
      | Raise e => Raise e
      end
  | VBool b => Ok (VFloat (if b then 1%float else 0%float))
  | VStr s =>
      match parse s with
      | Some f => Ok (VFloat f)
      | None => Raise ValueError
      end
  | VNone | VDevice _ | VList _ | VDict _ => Raise TypeError
  end.

End Py.

(** ** [os.path] on a POSIX system *)

Module PosixPath.

Definition sep : ascii := "/"%char.

Definition is_abs (p : string) : bool :=
  match p with
  | String c _ => Ascii.eqb c sep
  | EmptyString => false
  end.

Fixpoint ends_with_sep (p : string) : bool :=
  match p with
  | EmptyString => false
  | String c EmptyString => Ascii.eqb c sep
  | String _ p' => ends_with_sep p'
  end.

(** [os.path.join(a, b)]. *)
Definition join (a b : string) : string :=
  if is_abs b then b
  else if match a with EmptyString => true | _ => ends_with_sep a end
       then a ++ b
       else a ++ String sep b.

(** [p.split("/")]. *)
Fixpoint split_sep (p : string) : list string :=
  match p with
  | EmptyString => [EmptyString]
  | String c p' =>
      if Ascii.eqb c sep then EmptyString :: split_sep p'
      else match split_sep p' with
           | w :: ws => String c w :: ws
           | [] => [String c EmptyString]
           end
  end.

Definition nonempty (s : string) : bool :=
  match s with EmptyString => false | String _ _ => true end.

(** The directory a path names: its non-empty components, after the root
    ["/"] when the path is absolute.  Repeated and trailing separators name
    nothing; ["."] and [".."] are kept as they are written. *)
Definition components (p : string) : list string :=
  (if is_abs p then ["/"] else []) ++ filter (fun s => nonempty s = true) (split_sep p).

End PosixPath.

(** ** [datetime] *)

Record DateTime : Type := mkDateTime {
  year : N; month : N; day : N;
  hour : N; minute : N; second : N;
  microsecond : N
}.

(** The ranges [datetime] enforces on its fields. *)
Definition valid_datetime (d : DateTime) : Prop :=
  (1 <= year d <= 9999 /\ 1 <= month d <= 12 /\ 1 <= day d <= 31 /\
   hour d < 24 /\ minute d < 60 /\ second d < 60 /\
   microsecond d < 1000000)%N.

(** [d.replace(microsecond=0)]: the instant at the resolution of a second. *)
Definition to_second (d : DateTime) : DateTime :=
  mkDateTime (year d) (month d) (day d) (hour d) (minute d) (second d) 0.

Definition digit_char (n : N) : ascii := ascii_of_N (48 + n mod 10).

(** [w] decimal digits of [n], the most significant first. *)
Fixpoint fixed_digits (w : nat) (n : N) : list ascii :=
  match w with
  | O => []
  | S w' => fixed_digits w' (n / 10) ++ [digit_char n]
  end.

(** A number as a zero-padded decimal of at least [w] digits. *)
Definition zero_padded (w : nat) (n : N) : list ascii :=
  if (n <? 10 ^ N.of_nat w)%N then fixed_digits w n
  else list_ascii_of_string (pretty n).

(** [d.strftime(fmt)] for the directives [%Y %m %d %H %M %S]; every other
    character is copied. *)
Fixpoint strftime_chars (d : DateTime) (fmt : list ascii) : list ascii :=
  match fmt with
  | [] => []
  | c :: fmt' =>
      if Ascii.eqb c "%"%char then
        match fmt' with
        | k :: fmt'' =>
            let field :=
              if Ascii.eqb k "Y"%char then Some (zero_padded 4 (year d))
              else if Ascii.eqb k "m"%char then Some (zero_padded 2 (month d))
              else if Ascii.eqb k "d"%char then Some (zero_padded 2 (day d))
              else if Ascii.eqb k "H"%char then Some (zero_padded 2 (hour d))
              else if Ascii.eqb k "M"%char then Some (zero_padded 2 (minute d))
              else if Ascii.eqb k "S"%char then Some (zero_padded 2 (second d))
              else None in
            match field with
            | Some cs => cs ++ strftime_chars d fmt''
            | None => c :: strftime_chars d fmt'
            end
        | [] => [c]
        end
      else c :: strftime_chars d fmt'
  end.

Definition strftime (d : DateTime) (fmt : string) : string :=
  string_of_list_ascii (strftime_chars d (list_ascii_of_string fmt)).

(** ** A state and exception monad

    A computation reads and writes a state [S] and either returns a value or
    raises; what it wrote before raising stays written, as in Python. *)

Definition M (S A : Type) : Type := S -> Result A * S.

Global Instance M_ret {S} : MRet (M S) := fun A a s => (Ok a, s).

Global Instance M_bind {S} : MBind (M S) := fun A B f m s =>
  match m s with
  | (Ok a, s') => f a s'
  | (Raise e, s') => (Raise e, s')
  end.

Definition raise {S A} (e : PyExc) : M S A := fun s => (Raise e, s).

Definition lift {S A} (r : Result A) : M S A := fun s => (r, s).

Definition gets {S A} (f : S -> A) : M S A := fun s => (Ok (f s), s).

Definition modify {S} (f : S -> S) : M S unit := fun s => (Ok tt, f s).

(** [d[k]] on a dictionary with string keys. *)
Definition getitem (d : gmap string PyVal) (k : string) : Result PyVal :=
  match d !! k with
  | Some v => Ok v
  | None => Raise (KeyError k)
  end.

(** ** [TrainYoloV8ClassificationParam] *)

(** What the interpreter and the host give the parameter object: the
    directory of the module file
    ([os.path.dirname(os.path.realpath(__file__))]), the float parser behind
    [float(s)], the [repr] behind [str(v)] and the limit on the digits of an
    integer converted from or to a string. *)
Record Interp : Type := mkInterp {
  module_dir : string;
  parse_float : string -> option PrimFloat.float;
  repr : PyVal -> Result string;
  int_max_str_digits : nat
}.

(** [TaskParam.__init__]: the host's base class gives an empty [cfg]. *)
Definition TaskParam_init : gmap string PyVal := ∅.

(** [self.cfg[k] = v]. *)
Definition setitem (k : string) (v : PyVal) : M (gmap string PyVal) unit :=
  modify (fun cfg => <[k := v]> cfg).

Section Param.

Variable I : Interp.

(** [TrainYoloV8ClassificationParam.__init__]. *)
Definition Param_init : gmap string PyVal :=
  let cfg := TaskParam_init in
  let dataset_folder := PosixPath.join (module_dir I) "dataset" in
  let cfg := <["dataset_folder" := VStr dataset_folder]> cfg in
  let cfg := <["model_name" := VStr "yolov8m-cls"]> cfg in
  let cfg := <["epochs" := VInt 100]> cfg in
  let cfg := <["batch_size" := VInt 8]> cfg in
  let cfg := <["input_size" := VInt 640]> cfg in
  let cfg := <["dataset_split_ratio" := VFloat 0.9%float]> cfg in
  let cfg := <["workers" := VInt 0]> cfg in
  let cfg := <["optimizer" := VStr "auto"]> cfg in
  let cfg := <["weight_decay" := VFloat 0.0005%float]> cfg in
  let cfg := <["momentum" := VFloat 0.937%float]> cfg in
  let cfg := <["lr0" := VFloat 0.01%float]> cfg in
  let cfg := <["lrf" := VFloat 0.01%float]> cfg in
  let cfg := <["config_file" := VStr ""]> cfg in
  <["output_folder" := VStr (module_dir I ++ "/runs/")]> cfg.

Definition str_ (v : PyVal) : Result PyVal :=
  match Py.str (int_max_str_digits I) (repr I) v with
  | Ok s => Ok (VStr s)
  | Raise e => Raise e
  end.
Definition int_ (v : PyVal) : Result PyVal := Py.int (int_max_str_digits I) v.
Definition float_ (v : PyVal) : Result PyVal := Py.float (parse_float I) v.

(** [TrainYoloV8ClassificationParam.set_values]: the state is [self.cfg]. *)
Definition set_values (param_map : gmap string PyVal)
  : M (gmap string PyVal) unit :=
  v ← lift (getitem param_map "dataset_folder" ≫= str_);
  setitem "dataset_folder" v;;
  v ← lift (getitem param_map "model_name" ≫= str_);
  setitem "model_name" v;;
  v ← lift (getitem param_map "epochs" ≫= int_);
  setitem "epochs" v;;
  v ← lift (getitem param_map "batch_size" ≫= int_);
  setitem "batch_size" v;;
  v ← lift (getitem param_map "input_size" ≫= int_);
  setitem "input_size" v;;
  v ← lift (getitem param_map "workers" ≫= int_);
  setitem "workers" v;;
  v ← lift (getitem param_map "optimizer" ≫= str_);
  setitem "optimizer" v;;
  v ← lift (getitem param_map "weight_decay" ≫= float_);
  setitem "weight_decay" v;;
  v ← lift (getitem param_map "momentum" ≫= float_);
  setitem "momentum" v;;
  v ← lift (getitem param_map "lr0" ≫= float_);
  setitem "lr0" v;;
  v ← lift (getitem param_map "lrf" ≫= float_);
  setitem "lrf" v;;
  v ← lift (getitem param_map "config_file");
  setitem "config_file" v;;
  v ← lift (getitem param_map "dataset_split_ratio" ≫= float_);
  setitem "dataset_split_ratio" v;;
  v ← lift (getitem param_map "output_folder" ≫= str_);
  setitem "output_folder" v.

End Param.

(** ** [TrainYoloV8Classification] *)

(** The calls [run] makes to the host, the file system and the libraries, in
    the order it makes them.  A call is recorded when it is made, whether it
    then returns or raises. *)
Inductive Event : Type :=
| BeginTaskRun
| OpenFile (path : PyVal)
| NewYOLO (artifact : PyVal)
| AddCallback (event : string)
| Makedirs (path : PyVal)
| Train (kwargs : list (string * PyVal))
| EmitStepProgress
| EndTaskRun.

(** What the outside world answers during one run: whether CUDA is there,
    the text [open(p, 'r')] gives, the document [yaml.safe_load] reads from a
    text, whether [YOLO(artifact)] and [model.train] on its keyword
    arguments return or raise, what [datetime.now()] is, and the error
    (permissions, a file in the way) [os.makedirs] may meet on a path.
    The host's [begin_task_run], [emit_step_progress] and [end_task_run] and
    the model's [add_callback] are taken to return. *)
Record Env : Type := mkEnv {
  cuda_is_available : bool;
  open_read : PyVal -> Result string;
  yaml_safe_load : string -> Result PyVal;
  YOLO : PyVal -> Result unit;
  model_train : list (string * PyVal) -> Result unit;
  now : DateTime;
  makedirs_error : string -> option PyExc
}.

(** The task object together with the directories that exist and the calls
    made so far. *)
Record State : Type := mkState {
  cfg : gmap string PyVal;       (* self.get_param_object().cfg *)
  input_path : PyVal;            (* self.get_input(0).get_path() *)
  device : PyVal;                (* self.device *)
  model_name_file : PyVal;       (* self.model_name_file *)
  model : PyVal;                 (* self.model: None, or the artifact loaded *)
  stop_training : bool;          (* self.stop_training *)
  dirs : gset (list string);
  trace : list Event
}.

Definition set_device (v : PyVal) : M State unit :=
  modify (fun s => mkState (cfg s) (input_path s) v (model_name_file s)
                     (model s) (stop_training s) (dirs s) (trace s)).

Definition set_model_name_file (v : PyVal) : M State unit :=
  modify (fun s => mkState (cfg s) (input_path s) (device s) v
                     (model s) (stop_training s) (dirs s) (trace s)).

Definition set_model (v : PyVal) : M State unit :=
  modify (fun s => mkState (cfg s) (input_path s) (device s)
                     (model_name_file s) v (stop_training s) (dirs s)
                     (trace s)).

Definition add_dirs (ds : list (list string)) : M State unit :=
  modify (fun s => mkState (cfg s) (input_path s) (device s)
                     (model_name_file s) (model s) (stop_training s)
                     (list_to_set ds ∪ dirs s) (trace s)).

Definition log (e : Event) : M State unit :=
  modify (fun s => mkState (cfg s) (input_path s) (device s)
                     (model_name_file s) (model s) (stop_training s)
                     (dirs s) (trace s ++ [e])).

(** [TrainYoloV8Classification.__init__], for the parameter object the
    factory passes ([None] or an object that is copied), on a file system
    [fs]. The input slot is a fresh folder-path slot with no path yet. *)
Definition Task_init (I : Interp) (param : option (gmap string PyVal))
    (fs : gset (list string)) : State :=
  mkState (match param with None => Param_init I | Some c => c end)
          (VStr "") (VDevice "cpu") VNone VNone false fs [].

(** [get_progress_steps]. *)
Definition get_progress_steps : nat := 1.

(** [v + s] for a string [s]: only a string can be added to. *)
Definition add_str (v : PyVal) (s : string) : Result PyVal :=
  match v with
  | VStr x => Ok (VStr (x ++ s))
  | _ => Raise TypeError
  end.

(** The value a dictionary holds under a string key.  A dictionary is the
    list of its items in insertion order, its keys pairwise different. *)
Fixpoint dict_lookup (k : string) (items : list (PyVal * PyVal))
  : option PyVal :=
  match items with
  | [] => None
  | (VStr s, v) :: rest => if String.eqb s k then Some v else dict_lookup k rest
  | _ :: rest => dict_lookup k rest
  end.

(** [doc[k]] on whatever the YAML document is. *)
Definition subscript (doc : PyVal) (k : string) : Result PyVal :=
  match doc with
  | VDict items =>
      match dict_lookup k items with
      | Some v => Ok v
      | None => Raise (KeyError k)
      end
  | _ => Raise TypeError
  end.

(** [doc.items()]. *)
Definition items (doc : PyVal) : Result (list (PyVal * PyVal)) :=
  match doc with
  | VDict l => Ok l
  | _ => Raise AttributeError
  end.

(** A dictionary unpacked into keyword arguments: the keys must be
    strings. *)
Fixpoint keywords (d : list (PyVal * PyVal)) : Result (list (string * PyVal)) :=
  match d with
  | [] => Ok []
  | (VStr k, v) :: rest =>
      match keywords rest with
      | Ok kw => Ok ((k, v) :: kw)
      | Raise e => Raise e
      end
  | _ :: _ => Raise TypeError
  end.

(** [os.path.join(a, b)] for a string [b]. *)
Definition path_join (a : PyVal) (b : string) : Result PyVal :=
  match a with
  | VStr x => Ok (VStr (PosixPath.join x b))
  | _ => Raise TypeError
  end.

(** The directory itself and the ones above it. *)
Fixpoint ancestors (comps : list string) : list (list string) :=
  match comps with
  | [] => []
  | c :: rest => [c] :: (cons c <$> ancestors rest)
  end.

Section Task.

Variable E : Env.

(** [os.makedirs(p, exist_ok=exist_ok)]. *)
Definition makedirs (p : PyVal) (exist_ok : bool) : M State unit :=
  log (Makedirs p);;
  match p with
  | VStr s =>
      match PosixPath.components s with
      | [] => raise FileNotFoundError
      | comps =>
          match makedirs_error E s with
          | Some e => raise e
          | None =>
              ds ← gets dirs;
              if negb exist_ok && bool_decide (comps ∈ ds)
              then raise FileExistsError
              else add_dirs (ancestors comps)
          end
      end
  | _ => raise TypeError
  end.

(** [self.model.train] on keyword arguments [kwargs]. *)
Definition train (kwargs : list (string * PyVal)) : M State unit :=
  log (Train kwargs);;
  lift (model_train E kwargs).

(** [TrainYoloV8Classification.run]. *)
Definition run : M State unit :=
  log BeginTaskRun;;
  param ← gets cfg;
  dataset_folder ← gets input_path;
  set_device (if cuda_is_available E then VDevice "cuda" else VDevice "cpu");;
  c ← lift (getitem param "config_file");
  config_file ←
    (if Py.truthy c then
       path ← lift (getitem param "config_file");
       log (OpenFile path);;
       text ← lift (open_read E path);
       doc ← lift (yaml_safe_load E text);
       m ← lift (subscript doc "model");
       set_model_name_file m;;
       mret (Some doc)
     else
       name ← lift (getitem param "model_name");
       file ← lift (add_str name ".pt");
       set_model_name_file file;;
       mret None);
  artifact ← gets model_name_file;
  log (NewYOLO artifact);;
  lift (YOLO E artifact);;
  set_model artifact;;
  log (AddCallback "on_fit_epoch_end");;
  let experiment_name := strftime (now E) "%Y%m%d_%H%M%S" in
  folder ← lift (getitem param "output_folder");
  makedirs folder true;;
  folder ← lift (getitem param "output_folder");
  output_folder ← lift (path_join folder experiment_name);
  makedirs output_folder true;;
  c ← lift (getitem param "config_file");
  (if Py.truthy c then
     doc ← lift (match config_file with
                 | Some doc => Ok doc
                 | None => Raise (UnboundLocalError "config_file")
                 end);
     custom_args ← lift (items doc);
     kwargs ← lift (keywords custom_args);
     train kwargs
   else
     epochs ← lift (getitem param "epochs");
     imgsz ← lift (getitem param "input_size");
     batch ← lift (getitem param "batch_size");
     workers ← lift (getitem param "workers");
     optimizer ← lift (getitem param "optimizer");
     momentum ← lift (getitem param "momentum");
     weight_decay ← lift (getitem param "weight_decay");
     lr0 ← lift (getitem param "lr0");
     lrf ← lift (getitem param "lrf");
     device ← gets device;
     train [("data", dataset_folder); ("epochs", epochs); ("imgsz", imgsz);
            ("batch", batch); ("workers", workers);
            ("optimizer", optimizer); ("momentum", momentum);
            ("weight_decay", weight_decay); ("lr0", lr0); ("lrf", lrf);
            ("pretrained", VBool true); ("device", device);
            ("project", output_folder)]);;
  log EmitStepProgress;;
  log EndTaskRun.

End Task.

(** The calls a run started in [s] makes. *)
Definition events (E : Env) (s : State) : list Event :=
  drop (length (trace s)) (trace (run E s).2).

(** ** Reasoning about monadic code

    [wp m s Q]: running [m] from [s] ends in a result and a state that
    satisfy [Q]. *)

Definition wp {S A} (m : M S A) (s : S) (Q : Result A * S -> Prop) : Prop :=
  Q (m s).

(** Example surroundings for the task: an interpreter, a host without CUDA
    where no file can be opened, and one where the file ["cfg.yaml"] holds a
    document. *)
Definition example_interp : Interp :=
  mkInterp "/plugins/train" (fun _ => None) (fun _ => Ok "") 4300.

Definition example_now : DateTime := mkDateTime 2024 3 7 9 5 0 123.

Definition example_env : Env :=
  mkEnv false (fun _ => Raise FileNotFoundError)
        (fun _ => Raise (LibraryError "yaml.YAMLError"))
        (fun _ => Ok tt) (fun _ => Ok tt) example_now (fun _ => None).

Definition example_doc : list (PyVal * PyVal) :=
  [(VStr "model", VStr "yolov8n-cls.pt"); (VStr "data", VStr "/data/set");
   (VStr "epochs", VInt 3)].

Definition example_yaml_env (doc : PyVal) : Env :=
  mkEnv true
        (fun p => match p with
                  | VStr "cfg.yaml" => Ok "text"
                  | _ => Raise FileNotFoundError
                  end)
        (fun _ => Ok doc)
        (fun _ => Ok tt) (fun _ => Ok tt) example_now (fun _ => None).

Definition with_cfg (c : gmap string PyVal) (s : State) : State :=
  mkState c (input_path s) (device s) (model_name_file s) (model s)
          (stop_training s) (dirs s) (trace s).

Definition with_dirs (d : gset (list string)) (s : State) : State :=
  mkState (cfg s) (input_path s) (device s) (model_name_file s) (model s)
          (stop_training s) d (trace s).

Definition example_later_env : Env :=
  mkEnv false (fun _ => Raise FileNotFoundError)
        (fun _ => Raise (LibraryError "yaml.YAMLError"))
        (fun _ => Ok tt) (fun _ => Ok tt)
        (mkDateTime 2024 3 7 9 5 1 0) (fun _ => None).

(** Another instant of the second of [example_now]. *)
Definition example_same_second : DateTime := mkDateTime 2024 3 7 9 5 0 456.

(** A file system that makes no directory: a regular file is in the way. *)
Definition example_blocked_env : Env :=
  mkEnv false (fun _ => Raise FileNotFoundError)
        (fun _ => Raise (LibraryError "yaml.YAMLError"))
        (fun _ => Ok tt) (fun _ => Ok tt)
        example_now (fun _ => Some FileExistsError).

Definition example_state : State := Task_init example_interp None ∅.

Definition example_config_state : State :=
  with_cfg (<["config_file" := VStr "cfg.yaml"]> (cfg example_state))
           example_state.


(** The keyword names of the training call that [run] writes out. *)
Definition mapped_fields : list string :=
  ["data"; "epochs"; "imgsz"; "batch"; "workers"; "optimizer"; "momentum";
   "weight_decay"; "lr0"; "lrf"; "pretrained"; "device"; "project"].

Definition is_step_progress (e : Event) : bool :=
  match e with EmitStepProgress => true | _ => false end.

Definition is_train (e : Event) : bool :=
  match e with Train _ => true | _ => false end.

(** How many events of a kind a run made. *)
Definition count (p : Event -> bool) (evs : list Event) : nat :=
  length (List.filter p evs).

(** The keyword arguments [kw] written back as dictionary items. *)
Definition as_items (kw : list (string * PyVal)) : list (PyVal * PyVal) :=
  map (fun kv => (VStr kv.1, kv.2)) kw.

(** The name of the directory of a run that starts at [d]. *)
Definition experiment_name (d : DateTime) : string :=
  strftime d "%Y%m%d_%H%M%S".

(** A string in which no separator occurs. *)
Definition sep_free (s : string) : Prop :=
  Forall (fun c => c <> PosixPath.sep) (list_ascii_of_string s).

(** The characters of [YYYYMMDD_HHMMSS] for the instant [d]. *)
Definition name_chars (d : DateTime) : list ascii :=
  fixed_digits 4 (year d) ++ fixed_digits 2 (month d) ++
  fixed_digits 2 (day d) ++ "_"%char :: fixed_digits 2 (hour d) ++
  fixed_digits 2 (minute d) ++ fixed_digits 2 (second d).

(** [m] neither fails nor succeeds because of the directories that exist:
    started with other directories it ends with the same result and the same
    state, directories apart. *)
Definition dirs_blind {A} (m : M State A) : Prop :=
  forall s d, exists d', m (with_dirs d s) = ((m s).1, with_dirs d' (m s).2).

(** The directory of a run that starts at [d], under the folder [out]. *)
Definition output_dir (out : string) (d : DateTime) : list string :=
  (PosixPath.components out ++ [experiment_name d])%list.

(** ** The assignments of [set_values], as a list *)

(** The conversion [set_values] applies to an entry: [str], [int], [float],
    or none. *)
Inductive Conv : Type := CStr | CInt | CFloat | CKeep.

Definition convert (I : Interp) (c : Conv) (v : PyVal) : Result PyVal :=
  match c with
  | CStr => str_ I v
  | CInt => int_ I v
  | CFloat => float_ I v
  | CKeep => Ok v
  end.

(** The assignments of [set_values], in the order of the source. *)
Definition assignments : list (string * Conv) :=
  [("dataset_folder", CStr); ("model_name", CStr); ("epochs", CInt);
   ("batch_size", CInt); ("input_size", CInt); ("workers", CInt);
   ("optimizer", CStr); ("weight_decay", CFloat); ("momentum", CFloat);
   ("lr0", CFloat); ("lrf", CFloat); ("config_file", CKeep);
   ("dataset_split_ratio", CFloat); ("output_folder", CStr)].

(** What one assignment reads and converts. *)
Definition fetch (I : Interp) (pm : gmap string PyVal) (kc : string * Conv)
  : Result PyVal :=
  getitem pm kc.1 ≫= convert I kc.2.

Fixpoint assign_all (I : Interp) (pm : gmap string PyVal)
    (kcs : list (string * Conv)) : M (gmap string PyVal) unit :=
  match kcs with
  | [] => mret tt
  | kc :: rest => v ← lift (fetch I pm kc); setitem kc.1 v;; assign_all I pm rest
  end.

(** The dictionary after the assignments [kcs] have all been made. *)
Fixpoint assigned (I : Interp) (pm : gmap string PyVal)
    (kcs : list (string * Conv)) (cfg : gmap string PyVal)
  : gmap string PyVal :=
  match kcs with
  | [] => cfg
  | kc :: rest =>
      match fetch I pm kc with
      | Ok v => assigned I pm rest (<[kc.1 := v]> cfg)
      | Raise _ => cfg
      end
  end.

(** The type the result of a conversion has. *)
Definition conv_type (c : Conv) : option PyType :=
  match c with
  | CStr => Some TStr
  | CInt => Some TInt
  | CFloat => Some TFloat
  | CKeep => None
  end.

(** [t(v)] for the types of the options: [str(v)], [int(v)] and [float(v)]. *)
Definition coerce (I : Interp) (t : PyType) (v : PyVal) : Result PyVal :=
  match t with
  | TStr => str_ I v
  | TInt => int_ I v
  | TFloat => float_ I v
  | _ => Raise TypeError
  end.

(** The types the specification declares for the options (its data model):
    paths and strings are [str]. *)
Definition spec_declared_type (k : string) : option PyType :=
  if decide (k ∈ ["dataset_folder"; "model_name"; "optimizer"; "config_file";
                  "output_folder"]) then Some TStr
  else if decide (k ∈ ["epochs"; "batch_size"; "input_size"; "workers"])
       then Some TInt
  else if decide (k ∈ ["weight_decay"; "momentum"; "lr0"; "lrf";
                       "dataset_split_ratio"]) then Some TFloat
  else None.

(** An input mapping whose numbers are all written as strings, and an
    interpreter that reads the floats it holds. *)
Definition stringly_map : gmap string PyVal :=
  list_to_map
    [("dataset_folder", VStr "/data/flowers"); ("model_name", VStr "yolov8n-cls");
     ("epochs", VStr "100"); ("batch_size", VStr "16");
     ("input_size", VStr "224"); ("workers", VStr "2");
     ("optimizer", VStr "SGD"); ("weight_decay", VStr "0.0005");
     ("momentum", VStr "0.937"); ("lr0", VStr "0.01"); ("lrf", VStr "0.01");
     ("config_file", VStr ""); ("dataset_split_ratio", VStr "0.9");
     ("output_folder", VStr "/data/runs")].

Definition example_interp2 : Interp :=
  mkInterp "/plugins/train"
           (fun s => match s with
                     | "0.0005" => Some 0.0005%float
                     | "0.937" => Some 0.937%float
                     | "0.01" => Some 0.01%float
                     | "0.9" => Some 0.9%float
                     | _ => None
                     end)
           (fun _ => Ok "") 4300.

(** An input mapping that stops after its second key. *)
Definition partial_map : gmap string PyVal :=
  list_to_map [("dataset_folder", VStr "/data/flowers");
               ("model_name", VStr "yolov8n-cls")].

(** The entries of [cfg] that [run] reads when [config_file] is empty, in
    the order it reads them. *)
Definition default_mode_keys : list string :=
  ["model_name"; "output_folder"; "epochs"; "input_size"; "batch_size";
   "workers"; "optimizer"; "momentum"; "weight_decay"; "lr0"; "lrf"].

(** The entries of [cfg] that [run] reads at all. *)
Definition run_keys : list string := "config_file" :: default_mode_keys.

(** [m] does not look at the [cfg] of the state: with another [cfg] it does
    the same. *)
Definition cfg_blind {A} (m : M State A) : Prop :=
  forall s c', m (with_cfg c' s) = ((m s).1, with_cfg c' (m s).2).

(** ** [TrainYoloV8ClassificationFactory] and [IkomiaPlugin] *)

(** The information record of the factory ([self.info]). *)
Record TaskInfo : Type := mkTaskInfo {
  info_name : string;
  info_short_description : string;
  info_description : string;
  info_path : string;
  info_version : string;
  info_icon_path : string;
  info_authors : string;
  info_article : string;
  info_journal : string;
  info_year : Z;
  info_license : string;
  info_documentation_link : string;
  info_repository : string;
  info_keywords : string
}.

(** [TrainYoloV8ClassificationFactory.__init__]. *)
Definition Factory_init : TaskInfo :=
  {| info_name := "train_yolo_v8_classification";
     info_short_description := "Train YOLOv8 classification models.";
     info_description :=
       "This algorithm proposes train on YOLOv8 image classification models.";
     info_path := "Plugins/Python/Classification";
     info_version := "1.0.0";
     info_icon_path := "icons/icon.png";
     info_authors := "Jocher, G., Chaurasia, A., & Qiu, J";
     info_article := "YOLO by Ultralytics";
     info_journal := "";
     info_year := 2023;
     info_license := "AGPL-3.0";
     info_documentation_link := "https://docs.ultralytics.com/";
     info_repository := "https://github.com/ultralytics/ultralytics";
     info_keywords := "YOLO, classification, ultralytics, imagenet" |}.

(** [TrainYoloV8ClassificationFactory.create]: the task, under the name of
    the factory. *)
Definition create (I : Interp) (info : TaskInfo)
    (param : option (gmap string PyVal)) (fs : gset (list string))
  : string * State :=
  (info_name info, Task_init I param fs).

(** [IkomiaPlugin.get_process_factory]. *)
Definition get_process_factory : TaskInfo := Factory_init.

(** The host puts a path in the input slot of the task. *)
Definition with_input_path (p : PyVal) (s : State) : State :=
  mkState (cfg s) p (device s) (model_name_file s) (model s)
          (stop_training s) (dirs s) (trace s).

(** The keyword arguments of a training call with the default
    configuration. *)
Definition default_kwargs (I : Interp) (E : Env) (data : PyVal)
  : list (string * PyVal) :=
  [("data", data); ("epochs", VInt 100); ("imgsz", VInt 640);
   ("batch", VInt 8); ("workers", VInt 0); ("optimizer", VStr "auto");
   ("momentum", VFloat 0.937%float); ("weight_decay", VFloat 0.0005%float);
   ("lr0", VFloat 0.01%float); ("lrf", VFloat 0.01%float);
   ("pretrained", VBool true);
   ("device", VDevice (if cuda_is_available E then "cuda" else "cpu"));
   ("project",
    VStr (PosixPath.join (module_dir I ++ "/runs/")
            (experiment_name (now E))))].

(** More example surroundings: a host whose training call raises, one whose
    model constructor raises, and configurations with an entry taken out or
    an empty output folder. *)
Definition example_failing_train_env : Env :=
  mkEnv false (fun _ => Raise FileNotFoundError)
        (fun _ => Raise (LibraryError "yaml.YAMLError"))
        (fun _ => Ok tt) (fun _ => Raise (LibraryError "RuntimeError"))
        example_now (fun _ => None).

Definition example_failing_yolo_env : Env :=
  mkEnv false (fun _ => Raise FileNotFoundError)
        (fun _ => Raise (LibraryError "yaml.YAMLError"))
        (fun _ => Raise (LibraryError "RuntimeError")) (fun _ => Ok tt)
        example_now (fun _ => None).

Definition example_state_without (k : string) : State :=
  with_cfg (delete k (cfg example_state)) example_state.

Definition example_state_with (k : string) (v : PyVal) : State :=
  with_cfg (<[k := v]> (cfg example_state)) example_state.

Definition example_kwargs : list (string * PyVal) :=
  default_kwargs example_interp example_env (VStr "").

Definition example_bad_doc : list (PyVal * PyVal) :=
  [(VStr "model", VStr "yolov8n-cls.pt"); (VInt 1, VStr "one")].

Definition example_doc_kwargs : list (string * PyVal) :=
  [("model", VStr "yolov8n-cls.pt"); ("data", VStr "/data/set");
   ("epochs", VInt 3)].

Definition typed_map : gmap string PyVal := Param_init example_interp.

(** * Properties *)

(** ** The builtins on examples *)

Example int_of_string_100 : Py.int_of_string 4300 "100" = Some 100%Z.
Proof. reflexivity. Qed.

Example int_of_string_spaces :
  Py.int_of_string 4300 "  -1_000 " = Some (-1000)%Z.
Proof. reflexivity. Qed.

Example int_of_string_bad : Py.int_of_string 4300 "1__0" = None.
Proof. reflexivity. Qed.

Example int_of_float_neg : Py.int_of_float (-2.5)%float = Ok (-2)%Z.
Proof. reflexivity. Qed.

Example float_of_Z_3 : Py.float_of_Z 3 = Ok 3%float.
Proof. reflexivity. Qed.

Example float_of_Z_big : Py.float_of_Z (2 ^ 1024) = Raise OverflowError.
Proof. vm_compute. reflexivity. Qed.

Example str_int : Py.str 4300 (fun _ => Ok "") (VInt (-42)) = Ok "-42".
Proof. reflexivity. Qed.

Example int_of_string_separator :
  Py.int_of_string 4300 (String (ascii_of_nat 28) "12") = None.
Proof. reflexivity. Qed.

Example digit_limit :
  Py.too_many_digits 4300 4301 = true /\ Py.too_many_digits 0 4301 = false /\
  Py.too_many_digits 4300 4300 = false.
Proof. by vm_compute. Qed.

(** ** Rules of [wp] *)

Lemma wp_ret {S A} (a : A) (s : S) Q : Q (Ok a, s) -> wp (mret a) s Q.
Proof. done. Qed.

Lemma wp_bind {S A B} (m : M S A) (k : A -> M S B) s Q :
  wp m s (fun p => match p.1 with
                   | Ok a => wp (k a) p.2 Q
                   | Raise e => Q (Raise e, p.2)
                   end) ->
  wp (m ≫= k) s Q.
Proof.
  unfold wp, mbind, M_bind. destruct (m s) as [[a|e] s']; simpl; auto.
Qed.

Lemma wp_lift {S A} (r : Result A) (s : S) Q : Q (r, s) -> wp (lift r) s Q.
Proof. done. Qed.

Lemma wp_raise {S A} e (s : S) (Q : Result A * S -> Prop) :
  Q (Raise e, s) -> wp (raise e) s Q.
Proof. done. Qed.

Lemma wp_gets {S A} (f : S -> A) (s : S) Q : Q (Ok (f s), s) -> wp (gets f) s Q.
Proof. done. Qed.

Lemma wp_modify {S} (f : S -> S) (s : S) Q :
  Q (Ok tt, f s) -> wp (modify f) s Q.
Proof. done. Qed.

Lemma getitem_Some (d : gmap string PyVal) k v :
  d !! k = Some v -> getitem d k = Ok v.
Proof. unfold getitem. by intros ->. Qed.

Lemma getitem_None (d : gmap string PyVal) k :
  d !! k = None -> getitem d k = Raise (KeyError k).
Proof. unfold getitem. by intros ->. Qed.

Ltac wp_simpl :=
  cbn [cfg input_path device model_name_file model stop_training dirs trace
       fst snd].

(** One statement of the program. A branch that contradicts what is known
    is closed at once. *)
Ltac wp_step :=
  lazymatch goal with
  | |- wp (_ ≫= _) _ _ => apply wp_bind
  | |- wp (mret _) _ _ => apply wp_ret
  | |- wp (lift (getitem ?d ?k)) _ _ =>
      let H := fresh "Hget" in
      apply wp_lift; destruct (d !! k) eqn:H;
      [ rewrite (getitem_Some _ _ _ H) | rewrite (getitem_None _ _ H) ]
  | |- wp (lift ?r) _ _ =>
      apply wp_lift;
      let r' := eval cbn [path_join add_str items] in r in
      lazymatch r' with
      | Ok _ => change r with r'
      | Raise _ => change r with r'
      | _ => destruct r eqn:?
      end
  | |- wp (raise _) _ _ => apply wp_raise
  | |- wp (gets _) _ _ => apply wp_gets
  | |- wp (modify _) _ _ => apply wp_modify
  | |- wp (log _) _ _ => apply wp_modify
  | |- wp (set_device _) _ _ => apply wp_modify
  | |- wp (set_model_name_file _) _ _ => apply wp_modify
  | |- wp (set_model _) _ _ => apply wp_modify
  | |- wp (add_dirs _) _ _ => apply wp_modify
  | |- wp (makedirs _ _ _) _ _ => unfold makedirs
  | |- wp (train _ _) _ _ => unfold train
  | |- wp (if ?b then _ else _) _ _ => destruct b eqn:?
  | |- wp (match ?x with _ => _ end) _ _ => destruct x eqn:?
  end; wp_simpl; try congruence; simplify_eq.

(** All of [run], from a goal that mentions [run E s]. *)
Ltac run_exec E s :=
  unfold events;
  pattern (run E s);
  lazymatch goal with
  | |- ?Q (run E s) => change (wp (run E) s Q)
  end;
  destruct s as [c0 ip dev mnf mdl st ds tr];
  wp_simpl; cbn [cfg input_path device model_name_file model stop_training
                 dirs trace] in *;
  unfold run; repeat wp_step;
  rewrite <- ?app_assoc, ?drop_app_length; cbn [app].

(** Membership in an explicit list of events, case by case. *)
Ltac elem_cases H :=
  repeat (apply elem_of_cons in H as [H|H]; [try discriminate H|]);
  try (apply elem_of_nil in H; contradiction).


(** ** Paths *)

Section PathFacts.

Import PosixPath.

Lemma split_sep_nonnil p : split_sep p <> [].
Proof.
  destruct p as [|c p]; simpl; [done|].
  destruct (Ascii.eqb c sep); [done|]. by destruct (split_sep p).
Qed.

Lemma split_sep_app_sep a b :
  split_sep (a ++ String sep b) = (split_sep a ++ split_sep b)%list.
Proof.
  induction a as [|c a IH]; [done|].
  change (String c a ++ String sep b) with (String c (a ++ String sep b)).
  simpl. destruct (Ascii.eqb c sep); rewrite IH; [done|].
  pose proof (split_sep_nonnil a). by destruct (split_sep a).
Qed.

Lemma split_sep_free s : sep_free s -> split_sep s = [s].
Proof.
  unfold sep_free. induction s as [|c s IH]; simpl; [done|].
  intros [Hc Hs]%Forall_cons. rewrite IH by done.
  destruct (Ascii.eqb_spec c sep); done.
Qed.

Lemma ends_with_sep_inv a :
  ends_with_sep a = true -> exists a0, a = a0 ++ String sep EmptyString.
Proof.
  induction a as [|c a IH]; [done|]. destruct a as [|c' a].
  - simpl. intros ->%Ascii.eqb_eq. by exists EmptyString.
  - intros H. destruct IH as [a0 Ha0]; [done|]. exists (String c a0).
    change (String c (String c' a) = String c (a0 ++ String sep EmptyString)).
    by rewrite Ha0.
Qed.

Lemma is_abs_app a b : a <> EmptyString -> is_abs (a ++ b) = is_abs a.
Proof. by destruct a. Qed.

Lemma append_cons c (a b : string) : String c a ++ b = String c (a ++ b).
Proof. reflexivity. Qed.

Lemma append_assoc (a b c : string) : (a ++ b) ++ c = a ++ (b ++ c).
Proof.
  induction a as [|x a IH]; [done|]. rewrite !append_cons. by rewrite IH.
Qed.

Lemma components_join a name :
  name <> EmptyString -> sep_free name ->
  components (join a name) = (components a ++ [name])%list.
Proof.
  intros Hne Hfree.
  assert (Habs : is_abs name = false).
  { destruct name as [|c n]; [done|]. apply Forall_cons in Hfree as [Hc _].
    simpl. by destruct (Ascii.eqb_spec c sep). }
  assert (Hname : filter (fun s => nonempty s = true) [name] = [name]).
  { destruct name; [done|]. done. }
  unfold join. rewrite Habs. destruct a as [|c a].
  - change (components name = (components EmptyString ++ [name])%list).
    unfold components. rewrite Habs, (split_sep_free name) by done.
    by rewrite Hname.
  - unfold components.
    assert (Hsplit : filter (fun s => nonempty s = true)
                       (split_sep
                          (if ends_with_sep (String c a)
                           then String c a ++ name
                           else String c a ++ String sep name))
                     = (filter (fun s => nonempty s = true)
                          (split_sep (String c a)) ++ [name])%list).
    { destruct (ends_with_sep (String c a)) eqn:He.
      - apply ends_with_sep_inv in He as [a0 ->].
        rewrite append_assoc.
        change (String sep EmptyString ++ name) with (String sep name).
        rewrite !split_sep_app_sep, !filter_app, (split_sep_free name) by done.
        simpl (split_sep EmptyString). rewrite Hname.
        assert (Hemp : filter (fun s => nonempty s = true) [EmptyString] = [])
          by done.
        by rewrite Hemp, app_nil_r.
      - rewrite split_sep_app_sep, filter_app, (split_sep_free name) by done.
        by rewrite Hname. }
    replace (is_abs (if ends_with_sep (String c a)
                     then String c a ++ name
                     else String c a ++ String sep name))
      with (is_abs (String c a)) by (by destruct (ends_with_sep _)).
    rewrite Hsplit. by rewrite <- app_assoc.
Qed.

End PathFacts.

(** ** The name of the output directory *)

Lemma zero_padded_fixed w n :
  (n < 10 ^ N.of_nat w)%N -> zero_padded w n = fixed_digits w n.
Proof.
  intros H. unfold zero_padded. by apply N.ltb_lt in H as ->.
Qed.

Lemma length_fixed_digits w n : length (fixed_digits w n) = w.
Proof.
  revert n. induction w as [|w IH]; intros n; simpl; [done|].
  rewrite length_app, IH. simpl. lia.
Qed.

Lemma digit_char_cases n :
  digit_char n ∈ list_ascii_of_string "0123456789".
Proof.
  unfold digit_char. pose proof (N.mod_upper_bound n 10 ltac:(done)) as Hlt.
  destruct (n mod 10)%N as [|p] eqn:Hp; [set_solver|].
  assert (Hcases : (p = 1 \/ p = 2 \/ p = 3 \/ p = 4 \/ p = 5 \/ p = 6 \/
                    p = 7 \/ p = 8 \/ p = 9)%positive) by lia.
  destruct Hcases as [->|[->|[->|[->|[->|[->|[->|[->| ->]]]]]]]];
    vm_compute; repeat constructor.
Qed.

Lemma digit_char_inj n m :
  digit_char n = digit_char m -> (n mod 10 = m mod 10)%N.
Proof.
  unfold digit_char. intros H.
  pose proof (N.mod_upper_bound n 10 ltac:(done)).
  pose proof (N.mod_upper_bound m 10 ltac:(done)).
  apply (f_equal N_of_ascii) in H.
  rewrite !N_ascii_embedding in H by lia. lia.
Qed.

Lemma fixed_digits_inj w n m :
  (n < 10 ^ N.of_nat w)%N -> (m < 10 ^ N.of_nat w)%N ->
  fixed_digits w n = fixed_digits w m -> n = m.
Proof.
  revert n m. induction w as [|w IH]; intros n m Hn Hm.
  - simpl in *. lia.
  - rewrite Nat2N.inj_succ, N.pow_succ_r' in Hn, Hm. simpl. intros H.
    apply app_inj_2 in H as [H1 H2]; [|done].
    injection H2 as H2. apply digit_char_inj in H2.
    apply IH in H1.
    + rewrite (N.div_mod n 10), (N.div_mod m 10) by done. congruence.
    + apply N.Div0.div_lt_upper_bound. lia.
    + apply N.Div0.div_lt_upper_bound. lia.
Qed.

Lemma experiment_name_valid d :
  valid_datetime d -> experiment_name d = string_of_list_ascii (name_chars d).
Proof.
  intros (Hy & Hm & Hd & HH & HM & HS & _).
  unfold experiment_name, strftime, name_chars. f_equal.
  cbn [list_ascii_of_string list_byte_of_string strftime_chars Ascii.eqb Bool.eqb].
  rewrite !zero_padded_fixed by (simpl; lia).
  by rewrite app_nil_r.
Qed.

Lemma length_name_chars d : length (name_chars d) = 15.
Proof.
  unfold name_chars.
  repeat (rewrite ?length_app, ?length_cons, ?length_fixed_digits). done.
Qed.

Lemma experiment_name_inj d1 d2 :
  valid_datetime d1 -> valid_datetime d2 ->
  experiment_name d1 = experiment_name d2 -> to_second d1 = to_second d2.
Proof.
  intros V1 V2. rewrite !experiment_name_valid by done.
  destruct V1 as (Hy1 & Hm1 & Hd1 & HH1 & HM1 & HS1 & _).
  destruct V2 as (Hy2 & Hm2 & Hd2 & HH2 & HM2 & HS2 & _).
  intros H. apply (f_equal list_ascii_of_string) in H.
  rewrite !list_ascii_of_string_of_list_ascii in H. unfold name_chars in H.
  apply app_inj_1 in H as [Hy H]; [|by rewrite !length_fixed_digits].
  apply app_inj_1 in H as [Hm H]; [|by rewrite !length_fixed_digits].
  apply app_inj_1 in H as [Hd H]; [|by rewrite !length_fixed_digits].
  apply (app_inj_1 ["_"%char] ["_"%char]) in H as [_ H]; [|done].
  apply app_inj_1 in H as [HH H]; [|by rewrite !length_fixed_digits].
  apply app_inj_1 in H as [HM HS]; [|by rewrite !length_fixed_digits].
  apply fixed_digits_inj in Hy, Hm, Hd, HH, HM, HS; try (simpl; lia).
  unfold to_second. congruence.
Qed.

Lemma fixed_digits_sep_free w n :
  Forall (fun c => c <> PosixPath.sep) (fixed_digits w n).
Proof.
  revert n. induction w as [|w IH]; intros n; simpl; [done|].
  apply Forall_app. split; [done|]. apply Forall_singleton.
  pose proof (digit_char_cases n) as Hc. intros Heq. rewrite Heq in Hc.
  vm_compute in Hc. elem_cases Hc.
Qed.

Lemma experiment_name_sep_free d :
  valid_datetime d -> sep_free (experiment_name d).
Proof.
  intros V. rewrite experiment_name_valid by done. unfold sep_free.
  rewrite list_ascii_of_string_of_list_ascii. unfold name_chars.
  repeat first [ apply fixed_digits_sep_free
               | apply Forall_app; split
               | apply Forall_cons; split; [done|] ].
Qed.

Lemma experiment_name_nonempty d :
  valid_datetime d -> experiment_name d <> EmptyString.
Proof.
  intros V. rewrite experiment_name_valid by done.
  pose proof (length_name_chars d) as Hl.
  destruct (name_chars d); [done|]. done.
Qed.

Lemma ancestors_self c cs : (c :: cs) ∈ ancestors (c :: cs).
Proof.
  revert c. induction cs as [|c' cs IH]; intros c.
  - set_solver.
  - cbn [ancestors]. apply elem_of_cons. right.
    apply (list_elem_of_fmap_2 (cons c)). apply IH.
Qed.

Lemma ancestors_prefix (pre post : list string) :
  pre <> [] -> pre ∈ ancestors (pre ++ post).
Proof.
  revert post. induction pre as [|c pre IH]; intros post Hne; [done|].
  cbn [app ancestors]. destruct pre as [|c' pre].
  - set_solver.
  - apply elem_of_cons. right.
    apply (list_elem_of_fmap_2 (cons c)). by apply IH.
Qed.

(** ** The run *)


Lemma run_trace E s : trace (run E s).2 = (trace s ++ events E s)%list.
Proof. run_exec E s; by rewrite <- ?app_assoc. Qed.

Lemma run_cfg E s : cfg (run E s).2 = cfg s.
Proof. run_exec E s; done. Qed.

Lemma run_dirs_mono E s : dirs s ⊆ dirs (run E s).2.
Proof. run_exec E s; set_solver. Qed.



Lemma keywords_items d kw : keywords d = Ok kw <-> d = as_items kw.
Proof.
  revert kw. induction d as [|[k v] d IH]; intros kw; simpl.
  - split; [intros [= <-]; done | by destruct kw].
  - destruct k; try (split; [done | by destruct kw as [|[??]?]]).
    destruct (keywords d) as [kw'|e] eqn:Hk.
    + split.
      * intros [= <-]. simpl. f_equal. by apply IH.
      * destruct kw as [|[k' v'] kw'']; [done|]. intros [= -> -> Hd].
        apply IH in Hd. by simplify_eq.
    + split; [done|]. destruct kw as [|[k' v'] kw'']; [done|].
      intros [= -> -> Hd]. apply IH in Hd. congruence.
Qed.

Lemma as_items_inj kw kw' : as_items kw = as_items kw' -> kw = kw'.
Proof.
  revert kw'. induction kw as [|[k v] kw IH]; intros [|[k' v'] kw']; try done.
  intros [= -> -> H]. f_equal. by apply IH.
Qed.

Lemma run_config_kwargs E s c kw :
  cfg s !! "config_file" = Some c -> Py.truthy c = true ->
  Train kw ∈ events E s ->
  exists text, open_read E c = Ok text /\
               yaml_safe_load E text = Ok (VDict (as_items kw)).
Proof.
  intros Hc Ht. run_exec E s; intros Hin; elem_cases Hin.
  all: simplify_eq.
  all: match goal with H : items _ = Ok _ |- _ => unfold items in H end.
  all: repeat case_match; simplify_eq.
  all: match goal with H : keywords _ = Ok _ |- _ =>
         apply keywords_items in H; subst end.
  all: eauto.
Qed.

(** C1. The two ways of calling the training routine exclude each other.
    When [config_file] is set (true as a condition), a training call gets as
    keyword arguments the items of the dictionary read from the file, and
    nothing else: the other entries of [cfg] play no part, any run with this
    [config_file] passes the same arguments. When [config_file] is empty, no
    file is opened, and a training call gets exactly the keywords that [run]
    writes out. *)
Theorem run_modes_exclusive E s c :
  cfg s !! "config_file" = Some c ->
  if Py.truthy c then
    forall kw, Train kw ∈ events E s ->
      (exists text, open_read E c = Ok text /\
                    yaml_safe_load E text = Ok (VDict (as_items kw))) /\
      (forall s' kw', cfg s' !! "config_file" = Some c ->
                      Train kw' ∈ events E s' -> kw' = kw)
  else
    (forall p, OpenFile p ∉ events E s) /\
    (forall kw, Train kw ∈ events E s -> kw.*1 = mapped_fields).
Proof.
  intros Hc. destruct (Py.truthy c) eqn:Ht.
  - intros kw Hin.
    destruct (run_config_kwargs E s c kw Hc Ht Hin) as (text & Ho & Hy).
    split; [eauto|]. intros s' kw' Hc' Hin'.
    destruct (run_config_kwargs E s' c kw' Hc' Ht Hin') as (text' & Ho' & Hy').
    apply as_items_inj. congruence.
  - split; [intros p | intros kw]; run_exec E s; intros Hin; elem_cases Hin.
    all: by simplify_eq.
Qed.

Lemma run_modes_exclusive_witness :
  ((exists text,
       open_read (example_yaml_env (VDict example_doc)) (VStr "cfg.yaml")
         = Ok text /\
       yaml_safe_load (example_yaml_env (VDict example_doc)) text
         = Ok (VDict (as_items [("model", VStr "yolov8n-cls.pt");
                                ("data", VStr "/data/set");
                                ("epochs", VInt 3)]))) /\
   (forall s' kw',
       cfg s' !! "config_file" = Some (VStr "cfg.yaml") ->
       Train kw' ∈ events (example_yaml_env (VDict example_doc)) s' ->
       kw' = [("model", VStr "yolov8n-cls.pt"); ("data", VStr "/data/set");
              ("epochs", VInt 3)])) /\
  ((forall p, OpenFile p ∉ events example_env example_state) /\
   (forall kw, Train kw ∈ events example_env example_state ->
               kw.*1 = mapped_fields)).
Proof.
  split.
  - apply (run_modes_exclusive (example_yaml_env (VDict example_doc))
             example_config_state (VStr "cfg.yaml") eq_refl
             [("model", VStr "yolov8n-cls.pt"); ("data", VStr "/data/set");
              ("epochs", VInt 3)]).
    vm_compute. repeat constructor.
  - apply (run_modes_exclusive example_env example_state (VStr "") eq_refl).
Defined.

(** C4. The artifact the model object is built from. With an empty
    [config_file] it is the model name followed by [".pt"], and the model is
    built from it as soon as the name is a string; with a [config_file] it
    is what the parsed document holds under ["model"]. *)
Theorem model_artifact E s c :
  cfg s !! "config_file" = Some c ->
  forall a,
    NewYOLO a ∈ events E s <->
    if Py.truthy c then
      exists text doc, open_read E c = Ok text /\
                       yaml_safe_load E text = Ok doc /\
                       subscript doc "model" = Ok a
    else
      exists name, cfg s !! "model_name" = Some (VStr name) /\
                   a = VStr (name ++ ".pt").
Proof.
  intros Hc a. destruct (Py.truthy c) eqn:Ht; split.
  - run_exec E s; intros Hin; elem_cases Hin; simplify_eq; eauto.
  - intros (text & doc & Ho & Hy & Hm).
    run_exec E s; set_solver.
  - run_exec E s; intros Hin; elem_cases Hin; simplify_eq.
    all: match goal with H : add_str _ _ = Ok _ |- _ => unfold add_str in H end.
    all: repeat case_match; simplify_eq; eauto.
  - intros (name & Hn & ->).
    run_exec E s.
    all: try match goal with H : add_str _ _ = _ |- _ =>
               unfold add_str in H; simplify_eq end.
    all: set_solver.
Qed.

Lemma model_artifact_witness :
  (NewYOLO (VStr "yolov8m-cls.pt") ∈ events example_env example_state <->
   exists name, cfg example_state !! "model_name" = Some (VStr name) /\
                VStr "yolov8m-cls.pt" = VStr (name ++ ".pt")) /\
  (NewYOLO (VStr "yolov8n-cls.pt")
     ∈ events (example_yaml_env (VDict example_doc)) example_config_state <->
   exists text doc,
     open_read (example_yaml_env (VDict example_doc)) (VStr "cfg.yaml")
       = Ok text /\
     yaml_safe_load (example_yaml_env (VDict example_doc)) text = Ok doc /\
     subscript doc "model" = Ok (VStr "yolov8n-cls.pt")).
Proof.
  split.
  - apply (model_artifact example_env example_state (VStr "") eq_refl).
  - apply (model_artifact (example_yaml_env (VDict example_doc))
             example_config_state (VStr "cfg.yaml") eq_refl).
Defined.

(** C6. A run that returns emits one progress step, whatever the
    configuration (and so whatever the number of epochs), and the number of
    progress steps the task declares is one. *)
Theorem one_progress_step E s :
  (run E s).1 = Ok tt ->
  count is_step_progress (events E s) = 1 /\ get_progress_steps = 1.
Proof.
  run_exec E s; done.
Qed.

Lemma one_progress_step_witness :
  (count is_step_progress
     (events example_env
        (with_cfg (<["epochs" := VInt 1]> (cfg example_state)) example_state))
   = 1 /\ get_progress_steps = 1) /\
  (count is_step_progress
     (events example_env
        (with_cfg (<["epochs" := VInt 1000]> (cfg example_state))
           example_state))
   = 1 /\ get_progress_steps = 1).
Proof.
  split.
  - apply (one_progress_step example_env
             (with_cfg (<["epochs" := VInt 1]> (cfg example_state))
                example_state)).
    vm_compute. reflexivity.
  - apply (one_progress_step example_env
             (with_cfg (<["epochs" := VInt 1000]> (cfg example_state))
                example_state)).
    vm_compute. reflexivity.
Defined.

Lemma dirs_blind_ret {A} (a : A) : dirs_blind (mret a).
Proof. intros s d. by exists d. Qed.

Lemma dirs_blind_lift {A} (r : Result A) : dirs_blind (lift r).
Proof. intros s d. by exists d. Qed.

Lemma dirs_blind_raise {A} e : dirs_blind (raise (A:=A) e).
Proof. intros s d. by exists d. Qed.

Lemma dirs_blind_bind {A B} (m : M State A) (k : A -> M State B) :
  dirs_blind m -> (forall a, dirs_blind (k a)) -> dirs_blind (m ≫= k).
Proof.
  intros Hm Hk s d. unfold mbind, M_bind.
  destruct (Hm s d) as [d' ->]. destruct (m s) as [[a|e] s1]; simpl.
  - apply Hk.
  - by exists d'.
Qed.

Lemma dirs_blind_log e : dirs_blind (log e).
Proof. intros s d. by exists d. Qed.

Lemma dirs_blind_makedirs E p : dirs_blind (makedirs E p true).
Proof.
  intros [c0 ip dev mnf mdl st ds tr] d. unfold makedirs.
  destruct p; try by exists d.
  unfold mbind, M_bind, log, modify, with_dirs, raise; simpl.
  destruct (PosixPath.components s) as [|c cs]; [by exists d|].
  destruct (makedirs_error E s); [by exists d|].
  by eexists.
Qed.

Ltac dirs_blind_step :=
  lazymatch goal with
  | |- dirs_blind (_ ≫= _) => apply dirs_blind_bind; [|intros ?]
  | |- dirs_blind (mret _) => apply dirs_blind_ret
  | |- dirs_blind (lift _) => apply dirs_blind_lift
  | |- dirs_blind (raise _) => apply dirs_blind_raise
  | |- dirs_blind (makedirs _ _ true) => apply dirs_blind_makedirs
  | |- dirs_blind (train _ _) => unfold train
  | |- dirs_blind (if ?b then _ else _) => destruct b
  | |- dirs_blind _ => by (intros ? d; exists d)
  end.

Lemma dirs_blind_run E : dirs_blind (run E).
Proof. unfold run. repeat dirs_blind_step. Qed.

Lemma run_result_dirs E s d : (run E (with_dirs d s)).1 = (run E s).1.
Proof. destruct (dirs_blind_run E s d) as [d' ->]. done. Qed.

Lemma run_output_dir E s out :
  valid_datetime (now E) ->
  cfg s !! "output_folder" = Some (VStr out) ->
  PosixPath.components out <> [] ->
  makedirs_error E out = None ->
  makedirs_error E (PosixPath.join out (experiment_name (now E))) = None ->
  AddCallback "on_fit_epoch_end" ∈ events E s ->
  forall pre post,
    pre <> [] ->
    (pre ++ post)%list
      = (PosixPath.components out ++ [experiment_name (now E)])%list ->
    pre ∈ dirs (run E s).2.
Proof.
  intros V Hout Hne Hm1 Hm2 Hcb pre post Hpre Heq.
  rewrite <- components_join in Heq
    by auto using experiment_name_nonempty, experiment_name_sep_free.
  unfold experiment_name in *.
  revert Hcb. run_exec E s; intros Hin; elem_cases Hin.
  all: try congruence.
  all: try by destruct pre.
  all: apply elem_of_union; left; apply elem_of_list_to_set.
  all: rewrite <- Heq; by apply ancestors_prefix.
Qed.

Lemma run_train_dir E s kw :
  valid_datetime (now E) ->
  Train kw ∈ events E s ->
  exists out,
    cfg s !! "output_folder" = Some (VStr out) /\
    (PosixPath.components out ++ [experiment_name (now E)])%list
      ∈ dirs (run E s).2.
Proof.
  intros V.
  assert (Hj : forall out,
             PosixPath.components
               (PosixPath.join out (strftime (now E) "%Y%m%d_%H%M%S"))
             = (PosixPath.components out ++ [experiment_name (now E)])%list).
  { intros out. apply components_join;
      auto using experiment_name_nonempty, experiment_name_sep_free. }
  run_exec E s; intros Hin; elem_cases Hin.
  all: eexists; split; [done|].
  all: apply elem_of_union; left; apply elem_of_list_to_set.
  all: rewrite <- Hj.
  all: match goal with H : PosixPath.components (PosixPath.join _ _) = _ |- _ =>
         rewrite H end.
  all: apply ancestors_self.
Qed.

Lemma dict_lookup_elem k items v :
  dict_lookup k items = Some v -> (VStr k, v) ∈ items.
Proof.
  induction items as [|[k' v'] items IH]; simpl; [done|].
  destruct k'; try (intros ?%IH; set_solver).
  destruct (String.eqb_spec s k) as [->|]; [|intros ?%IH; set_solver].
  intros [= ->]. set_solver.
Qed.

Lemma elem_of_as_items k v kw : (VStr k, v) ∈ as_items kw <-> (k, v) ∈ kw.
Proof.
  unfold as_items. rewrite list_elem_of_fmap. split.
  - intros ([k' v'] & [= -> ->] & Hin). done.
  - intros Hin. by exists (k, v).
Qed.

(** C7. With an empty [config_file], a training call gets exactly the
    keywords written out in [run], in that order: the path of the input slot
    as [data], the entries [epochs], [input_size], [batch_size], [workers],
    [optimizer], [momentum], [weight_decay], [lr0] and [lrf] of [cfg],
    [pretrained] set to [True], the device selected at the start of the run,
    and as [project] the directory named after the time under the output
    folder. [dataset_split_ratio] is not among them, and the run makes that
    one training call only. *)
Theorem run_mapped_parameters E s c :
  cfg s !! "config_file" = Some c -> Py.truthy c = false ->
  forall kw, Train kw ∈ events E s ->
    exists epochs imgsz batch workers optimizer momentum weight_decay lr0 lrf
           out,
      cfg s !! "epochs" = Some epochs /\
      cfg s !! "input_size" = Some imgsz /\
      cfg s !! "batch_size" = Some batch /\
      cfg s !! "workers" = Some workers /\
      cfg s !! "optimizer" = Some optimizer /\
      cfg s !! "momentum" = Some momentum /\
      cfg s !! "weight_decay" = Some weight_decay /\
      cfg s !! "lr0" = Some lr0 /\
      cfg s !! "lrf" = Some lrf /\
      cfg s !! "output_folder" = Some (VStr out) /\
      kw = [("data", input_path s); ("epochs", epochs); ("imgsz", imgsz);
            ("batch", batch); ("workers", workers);
            ("optimizer", optimizer); ("momentum", momentum);
            ("weight_decay", weight_decay); ("lr0", lr0); ("lrf", lrf);
            ("pretrained", VBool true);
            ("device", VDevice (if cuda_is_available E then "cuda"
                                else "cpu"));
            ("project",
             VStr (PosixPath.join out (experiment_name (now E))))] /\
      ("dataset_split_ratio" ∉ kw.*1) /\
      count is_train (events E s) = 1.
Proof.
  intros Hc Ht kw. unfold experiment_name.
  run_exec E s; intros Hin; elem_cases Hin.
  all: simplify_eq.
  all: do 10 eexists; repeat (split; [done|]).
  all: split; [by destruct (cuda_is_available E)|].
  all: split; [|done].
  all: intros Hd; simpl in Hd; elem_cases Hd.
Qed.

(** C10. With a [config_file], a training call gets the items of the
    parsed document as its keyword arguments, the key ["model"] among them;
    the directory named after the time has been created under the output
    folder, yet it reaches the call only if the document itself has a
    ["project"] entry, and then with the document's value. *)
Theorem config_mode_project E s c :
  valid_datetime (now E) ->
  cfg s !! "config_file" = Some c -> Py.truthy c = true ->
  forall kw, Train kw ∈ events E s ->
    exists text items m out,
      open_read E c = Ok text /\
      yaml_safe_load E text = Ok (VDict items) /\
      keywords items = Ok kw /\
      (forall k v, (k, v) ∈ kw <-> (VStr k, v) ∈ items) /\
      ("model", m) ∈ kw /\
      cfg s !! "output_folder" = Some (VStr out) /\
      output_dir out (now E) ∈ dirs (run E s).2.
Proof.
  intros V Hc Ht kw Hin.
  destruct (run_train_dir E s kw V Hin) as (out & Hout & Hdir).
  fold (output_dir out (now E)) in Hdir. revert Hin Hdir.
  run_exec E s; intros Hin; elem_cases Hin.
  all: simplify_eq.
  all: match goal with H : items _ = Ok _ |- _ => unfold items in H end.
  all: repeat case_match; simplify_eq.
  all: intros Hdir.
  all: match goal with H : keywords _ = Ok _ |- _ =>
         pose proof H as Hkw; apply keywords_items in Hkw; subst end.
  all: match goal with H : subscript _ _ = Ok ?m |- _ =>
         unfold subscript in H; 
         destruct (dict_lookup _ _) eqn:Hl in H; simplify_eq;
         apply dict_lookup_elem, elem_of_as_items in Hl end.
  all: eexists _, _, _, _; repeat (split; [done|]).
  all: split; [intros; by rewrite elem_of_as_items|].
  all: done.
Qed.

Lemma run_mapped_parameters_witness :
  exists epochs imgsz batch workers optimizer momentum weight_decay lr0 lrf
         out,
    cfg example_state !! "epochs" = Some epochs /\
    cfg example_state !! "input_size" = Some imgsz /\
    cfg example_state !! "batch_size" = Some batch /\
    cfg example_state !! "workers" = Some workers /\
    cfg example_state !! "optimizer" = Some optimizer /\
    cfg example_state !! "momentum" = Some momentum /\
    cfg example_state !! "weight_decay" = Some weight_decay /\
    cfg example_state !! "lr0" = Some lr0 /\
    cfg example_state !! "lrf" = Some lrf /\
    cfg example_state !! "output_folder" = Some (VStr out) /\
    [("data", VStr ""); ("epochs", VInt 100); ("imgsz", VInt 640);
     ("batch", VInt 8); ("workers", VInt 0); ("optimizer", VStr "auto");
     ("momentum", VFloat 0.937%float); ("weight_decay", VFloat 0.0005%float);
     ("lr0", VFloat 0.01%float); ("lrf", VFloat 0.01%float);
     ("pretrained", VBool true); ("device", VDevice "cpu");
     ("project", VStr "/plugins/train/runs/20240307_090500")]
    = [("data", input_path example_state); ("epochs", epochs);
       ("imgsz", imgsz); ("batch", batch); ("workers", workers);
       ("optimizer", optimizer); ("momentum", momentum);
       ("weight_decay", weight_decay); ("lr0", lr0); ("lrf", lrf);
       ("pretrained", VBool true);
       ("device", VDevice (if cuda_is_available example_env then "cuda"
                           else "cpu"));
       ("project",
        VStr (PosixPath.join out (experiment_name (now example_env))))] /\
    ("dataset_split_ratio"
       ∉ [("data", VStr ""); ("epochs", VInt 100); ("imgsz", VInt 640);
          ("batch", VInt 8); ("workers", VInt 0); ("optimizer", VStr "auto");
          ("momentum", VFloat 0.937%float);
          ("weight_decay", VFloat 0.0005%float);
          ("lr0", VFloat 0.01%float); ("lrf", VFloat 0.01%float);
          ("pretrained", VBool true); ("device", VDevice "cpu");
          ("project", VStr "/plugins/train/runs/20240307_090500")].*1) /\
    count is_train (events example_env example_state) = 1.
Proof.
  apply (run_mapped_parameters example_env example_state (VStr "")
           eq_refl eq_refl).
  vm_compute. repeat constructor.
Defined.

Lemma example_now_valid : valid_datetime example_now.
Proof. unfold valid_datetime, example_now; simpl. lia. Qed.

Lemma config_mode_project_witness :
  exists text items m out,
    open_read (example_yaml_env (VDict example_doc)) (VStr "cfg.yaml")
      = Ok text /\
    yaml_safe_load (example_yaml_env (VDict example_doc)) text
      = Ok (VDict items) /\
    keywords items = Ok [("model", VStr "yolov8n-cls.pt");
                         ("data", VStr "/data/set"); ("epochs", VInt 3)] /\
    (forall k v, (k, v) ∈ [("model", VStr "yolov8n-cls.pt");
                           ("data", VStr "/data/set"); ("epochs", VInt 3)]
                 <-> (VStr k, v) ∈ items) /\
    ("model", m) ∈ [("model", VStr "yolov8n-cls.pt");
                    ("data", VStr "/data/set"); ("epochs", VInt 3)] /\
    cfg example_config_state !! "output_folder" = Some (VStr out) /\
    output_dir out (now (example_yaml_env (VDict example_doc)))
      ∈ dirs (run (example_yaml_env (VDict example_doc))
                  example_config_state).2.
Proof.
  apply (config_mode_project (example_yaml_env (VDict example_doc))
           example_config_state (VStr "cfg.yaml") example_now_valid
           eq_refl eq_refl).
  vm_compute. repeat constructor.
Defined.

(** With [exist_ok] false an existing directory is an error: the model of
    [os.makedirs] does tell the two apart. *)
Example makedirs_not_exist_ok :
  (makedirs example_env (VStr "/a") false
     (with_dirs {[ ["/"; "a"] ]} example_state)).1 = Raise FileExistsError.
Proof. reflexivity. Qed.

Lemma experiment_name_differs d1 d2 :
  valid_datetime d1 -> valid_datetime d2 ->
  to_second d1 <> to_second d2 -> experiment_name d1 <> experiment_name d2.
Proof. intros V1 V2 Hne Heq. by apply Hne, experiment_name_inj. Qed.

(** C5, as the code has it. A run that has built its model object creates,
    under the configured output folder [out], a directory named after the current time as
    [YYYYMMDD_HHMMSS]; the directories above it exist afterwards as well, and
    the directories that were already there change nothing in the result of
    the run. Two runs of one process at instants that differ (at the
    resolution of a second) use different names, and after the second run
    both directories exist. The file system must let the folders be made:
    [makedirs_error] is the error it would answer. *)
Theorem output_directory E1 E2 s out :
  valid_datetime (now E1) -> valid_datetime (now E2) ->
  to_second (now E1) <> to_second (now E2) ->
  cfg s !! "output_folder" = Some (VStr out) ->
  PosixPath.components out <> [] ->
  makedirs_error E1 out = None ->
  makedirs_error E1 (PosixPath.join out (experiment_name (now E1))) = None ->
  makedirs_error E2 out = None ->
  makedirs_error E2 (PosixPath.join out (experiment_name (now E2))) = None ->
  AddCallback "on_fit_epoch_end" ∈ events E1 s ->
  AddCallback "on_fit_epoch_end" ∈ events E2 (run E1 s).2 ->
  experiment_name (now E1) = string_of_list_ascii (name_chars (now E1)) /\
  output_dir out (now E1) ∈ dirs (run E1 s).2 /\
  (forall pre post, pre <> [] -> (pre ++ post)%list = output_dir out (now E1) ->
                    pre ∈ dirs (run E1 s).2) /\
  (forall d, (run E1 (with_dirs d s)).1 = (run E1 s).1) /\
  experiment_name (now E1) <> experiment_name (now E2) /\
  output_dir out (now E1) ∈ dirs (run E2 (run E1 s).2).2 /\
  output_dir out (now E2) ∈ dirs (run E2 (run E1 s).2).2.
Proof.
  intros V1 V2 Hne Hout Hcomp H1a H1b H2a H2b Hcb1 Hcb2.
  assert (Hout2 : cfg (run E1 s).2 !! "output_folder" = Some (VStr out))
    by by rewrite run_cfg.
  assert (Hd1 : forall pre post,
             pre <> [] -> (pre ++ post)%list = output_dir out (now E1) ->
             pre ∈ dirs (run E1 s).2)
    by (intros pre post; by apply run_output_dir).
  assert (Hself : forall d, output_dir out d <> []).
  { intros d. unfold output_dir. by destruct (PosixPath.components out). }
  split; [by apply experiment_name_valid|].
  split; [apply (Hd1 _ []); [done | by rewrite app_nil_r]|].
  split; [done|].
  split; [intros d; apply run_result_dirs|].
  split; [by apply experiment_name_differs|].
  split.
  - apply run_dirs_mono. apply (Hd1 _ []); [done | by rewrite app_nil_r].
  - apply (run_output_dir E2 (run E1 s).2 out V2 Hout2 Hcomp H2a H2b Hcb2 _ []);
      [done | by rewrite app_nil_r].
Qed.

(** The claim C5 as the specification words it fails. Not every run makes
    a directory: a run whose model cannot be built stops before it makes
    one, and so does a run whose output folder the file system refuses to
    make. Nor do different instants always give different names: two
    instants of one second give the same name. *)
Lemma output_directory_not_always :
  ~ (forall E s out,
       cfg s !! "output_folder" = Some (VStr out) ->
       (forall p, makedirs_error E p = None) ->
       output_dir out (now E) ∈ dirs (run E s).2) /\
  ~ (forall E s out,
       cfg s !! "output_folder" = Some (VStr out) ->
       AddCallback "on_fit_epoch_end" ∈ events E s ->
       output_dir out (now E) ∈ dirs (run E s).2) /\
  ~ (forall d1 d2, valid_datetime d1 -> valid_datetime d2 -> d1 <> d2 ->
                   experiment_name d1 <> experiment_name d2).
Proof.
  split; [|split]; intros H.
  - specialize (H example_failing_yolo_env example_state
                  "/plugins/train/runs/" eq_refl (fun _ => eq_refl)).
    assert (Hd : dirs (run example_failing_yolo_env example_state).2 = ∅)
      by (vm_compute; reflexivity).
    rewrite Hd in H. by apply not_elem_of_empty in H.
  - assert (Hd : dirs (run example_blocked_env example_state).2 = ∅)
      by (vm_compute; reflexivity).
    specialize (H example_blocked_env example_state
                  "/plugins/train/runs/" eq_refl).
    rewrite Hd in H. apply not_elem_of_empty in H; [done|].
    vm_compute. repeat constructor.
  - apply (H example_now example_same_second);
      [by vm_compute|by vm_compute|discriminate|reflexivity].
Qed.

Lemma output_directory_witness :
  experiment_name (now example_env)
    = string_of_list_ascii (name_chars (now example_env)) /\
  output_dir "/plugins/train/runs/" (now example_env)
    ∈ dirs (run example_env example_state).2 /\
  (forall pre post,
      pre <> [] ->
      (pre ++ post)%list
        = output_dir "/plugins/train/runs/" (now example_env) ->
      pre ∈ dirs (run example_env example_state).2) /\
  (forall d, (run example_env (with_dirs d example_state)).1
             = (run example_env example_state).1) /\
  experiment_name (now example_env) <> experiment_name (now example_later_env) /\
  output_dir "/plugins/train/runs/" (now example_env)
    ∈ dirs (run example_later_env (run example_env example_state).2).2 /\
  output_dir "/plugins/train/runs/" (now example_later_env)
    ∈ dirs (run example_later_env (run example_env example_state).2).2.
Proof.
  apply (output_directory example_env example_later_env example_state
           "/plugins/train/runs/").
  - unfold valid_datetime; simpl; lia.
  - unfold valid_datetime; simpl; lia.
  - discriminate.
  - reflexivity.
  - vm_compute; discriminate.
  - reflexivity.
  - reflexivity.
  - reflexivity.
  - reflexivity.
  - vm_compute; repeat constructor.
  - vm_compute; repeat constructor.
Defined.


Example experiment_name_example :
  experiment_name example_now = "20240307_090500".
Proof. reflexivity. Qed.

(** A run with an empty [config_file] returns when the entries it reads are
    there, the model name is a string, the output folder is a path that can
    be made, and the library calls return. *)
Lemma run_default_returns E s c name out :
  valid_datetime (now E) ->
  cfg s !! "config_file" = Some c -> Py.truthy c = false ->
  cfg s !! "model_name" = Some (VStr name) ->
  YOLO E (VStr (name ++ ".pt")) = Ok tt ->
  cfg s !! "output_folder" = Some (VStr out) ->
  PosixPath.components out <> [] ->
  makedirs_error E out = None ->
  makedirs_error E (PosixPath.join out (experiment_name (now E))) = None ->
  (forall k, k ∈ ["epochs"; "input_size"; "batch_size"; "workers";
                  "optimizer"; "momentum"; "weight_decay"; "lr0"; "lrf"] ->
             is_Some (cfg s !! k)) ->
  (forall kw, model_train E kw = Ok tt) ->
  (run E s).1 = Ok tt.
Proof.
  intros V Hc Ht Hn Hy Hout Hne Hm1 Hm2 Hkeys Htrain.
  assert (Hj : PosixPath.components
                 (PosixPath.join out (experiment_name (now E))) <> []).
  { rewrite components_join
      by auto using experiment_name_nonempty, experiment_name_sep_free.
    by destruct (PosixPath.components out). }
  unfold experiment_name in *.
  run_exec E s; try done.
  all: try (by rewrite Htrain in *).
  all: match goal with
       | H : ?m !! ?k = None |- _ =>
           destruct (Hkeys k) as [? ?]; [set_solver | congruence]
       end.
Qed.

(** ** The parameter object *)

Lemma bind_cong {S A B} (m m' : M S A) (k k' : A -> M S B) s :
  m s = m' s -> (forall a s', k a s' = k' a s') ->
  (m ≫= k) s = (m' ≫= k') s.
Proof.
  intros Hm H. unfold mbind, M_bind. rewrite Hm.
  destruct (m' s) as [[a|e] s']; auto.
Qed.

Lemma set_values_assignments I pm cfg :
  set_values I pm cfg = assign_all I pm assignments cfg.
Proof.
  unfold set_values, assignments. cbn [assign_all].
  repeat (apply bind_cong;
          [ first [ reflexivity
                  | unfold lift, fetch, mbind, Result_bind; simpl;
                    by destruct (getitem _ _) ]
          | intros ?? ]).
  reflexivity.
Qed.

Lemma assign_all_ok I pm kcs cfg :
  (forall kc, kc ∈ kcs -> exists w, fetch I pm kc = Ok w) ->
  assign_all I pm kcs cfg = (Ok tt, assigned I pm kcs cfg).
Proof.
  revert cfg. induction kcs as [|kc kcs IH]; intros cfg Hall; [done|].
  destruct (Hall kc) as [w Hw]; [set_solver|].
  cbn [assign_all assigned]. unfold mbind at 1, M_bind, lift. rewrite Hw.
  cbn. apply IH. intros ??. apply Hall. set_solver.
Qed.

Lemma assign_all_raise I pm pre kc post cfg e :
  (forall kc', kc' ∈ pre -> exists w, fetch I pm kc' = Ok w) ->
  fetch I pm kc = Raise e ->
  assign_all I pm (pre ++ kc :: post) cfg = (Raise e, assigned I pm pre cfg).
Proof.
  revert cfg. induction pre as [|kc' pre IH]; intros cfg Hall He.
  - cbn [app assign_all assigned]. unfold mbind at 1, M_bind, lift.
    by rewrite He.
  - destruct (Hall kc') as [w Hw]; [set_solver|].
    cbn [app assign_all assigned]. unfold mbind at 1, M_bind, lift.
    rewrite Hw. cbn. apply IH; [|done]. intros ??. apply Hall. set_solver.
Qed.

Lemma assign_all_inv I pm kcs cfg cfg' :
  assign_all I pm kcs cfg = (Ok tt, cfg') ->
  forall kc, kc ∈ kcs -> exists w, fetch I pm kc = Ok w.
Proof.
  revert cfg. induction kcs as [|kc kcs IH]; intros cfg H kc' Hin.
  - set_solver.
  - cbn [assign_all] in H. unfold mbind at 1, M_bind, lift in H.
    destruct (fetch I pm kc) as [w|e] eqn:Hw; [|done].
    apply elem_of_cons in Hin as [->|Hin]; [eauto|].
    change (assign_all I pm kcs (<[kc.1 := w]> cfg) = (Ok tt, cfg')) in H.
    eapply IH; eauto.
Qed.

Lemma assigned_other I pm kcs cfg k :
  k ∉ kcs.*1 -> assigned I pm kcs cfg !! k = cfg !! k.
Proof.
  revert cfg. induction kcs as [|kc kcs IH]; intros cfg Hk; [done|].
  cbn [assigned]. rewrite fmap_cons in Hk.
  apply not_elem_of_cons in Hk as [Hne Hk].
  destruct (fetch I pm kc); [|done].
  rewrite IH by done. by apply lookup_insert_ne.
Qed.

Lemma assigned_lookup I pm kcs cfg kc w :
  NoDup (kcs.*1) ->
  (forall kc', kc' ∈ kcs -> exists w', fetch I pm kc' = Ok w') ->
  kc ∈ kcs -> fetch I pm kc = Ok w ->
  assigned I pm kcs cfg !! kc.1 = Some w.
Proof.
  revert cfg. induction kcs as [|kc' kcs IH]; intros cfg Hnd Hall Hin Hw.
  - set_solver.
  - cbn [assigned]. rewrite fmap_cons in Hnd.
    apply NoDup_cons in Hnd as [Hnotin Hnd].
    destruct (Hall kc') as [w' Hw']; [set_solver|]. rewrite Hw'.
    apply elem_of_cons in Hin as [->|Hin].
    + rewrite assigned_other by done.
      assert (w' = w) as -> by congruence. apply lookup_insert_eq.
    + apply IH; auto. intros ??. apply Hall. set_solver.
Qed.

Lemma assignments_NoDup : NoDup (assignments.*1).
Proof. apply (bool_decide_unpack _). by vm_compute. Qed.

Lemma fetch_type I pm kc w t :
  fetch I pm kc = Ok w -> conv_type kc.2 = Some t -> type_of w = t.
Proof.
  destruct kc as [k c]. unfold fetch, getitem. simpl.
  destruct (pm !! k) as [v|]; [|done]. simpl.
  destruct c; simpl; intros Hw [= <-].
  - unfold str_ in Hw. destruct (Py.str _ _ v); by simplify_eq.
  - unfold int_, Py.int in Hw. repeat case_match; by simplify_eq.
  - unfold float_, Py.float in Hw. repeat case_match; by simplify_eq.
Qed.

Lemma spec_declared_type_assignments k c :
  (k, c) ∈ assignments -> k <> "config_file" ->
  spec_declared_type k = conv_type c.
Proof.
  intros Hin Hne. unfold assignments in Hin.
  repeat (apply elem_of_cons in Hin as [[= -> ->]|Hin]; [done|]).
  by apply elem_of_nil in Hin.
Qed.

Lemma spec_declared_type_inv k t :
  spec_declared_type k = Some t -> exists c, (k, c) ∈ assignments.
Proof.
  unfold spec_declared_type. intros H.
  repeat case_decide; try done.
  all: match goal with Hin : _ ∈ _ |- _ =>
         apply list_elem_of_In in Hin; simpl in Hin end.
  all: intuition subst.
  all: eexists; unfold assignments.
  all: repeat constructor.
Qed.

Lemma fetch_ok I pm k c w :
  fetch I pm (k, c) = Ok w ->
  exists v, pm !! k = Some v /\ convert I c v = Ok w.
Proof.
  unfold fetch, getitem, mbind, Result_bind. simpl.
  destruct (pm !! k) as [v|]; [|done]. eauto.
Qed.

Lemma convert_coerce I c t v :
  conv_type c = Some t -> convert I c v = coerce I t v.
Proof. destruct c; intros [= <-]; reflexivity. Qed.

(** C2, as the code has it. When [set_values] returns, every entry other
    than [config_file] holds the value of the input mapping under the same
    key, coerced to the type declared for the entry: the entry is [str(v)],
    [int(v)] or [float(v)] for the input value [v], and it has the declared
    type. [config_file] holds the value of the input mapping as it was
    given, with no conversion. The string ["100"] for [epochs] becomes the
    integer 100. The operation raises when a key it reads is absent, and
    when a conversion it applies raises: when the value of an entry other
    than [config_file] cannot be coerced to the type declared for it. *)
Theorem set_values_coerces I pm cfg :
  (forall cfg', set_values I pm cfg = (Ok tt, cfg') ->
     (forall k t, spec_declared_type k = Some t -> k <> "config_file" ->
                  exists v w, pm !! k = Some v /\ coerce I t v = Ok w /\
                              cfg' !! k = Some w /\ type_of w = t) /\
     (exists v, pm !! "config_file" = Some v /\
                cfg' !! "config_file" = Some v) /\
     (pm !! "epochs" = Some (VStr "100") ->
      cfg' !! "epochs" = Some (VInt 100))) /\
  (forall k c, (k, c) ∈ assignments -> pm !! k = None ->
               (set_values I pm cfg).1 <> Ok tt) /\
  (forall k c v e, (k, c) ∈ assignments -> pm !! k = Some v ->
                   convert I c v = Raise e ->
                   (set_values I pm cfg).1 <> Ok tt) /\
  (forall k t v e, spec_declared_type k = Some t -> k <> "config_file" ->
                   pm !! k = Some v -> coerce I t v = Raise e ->
                   (set_values I pm cfg).1 <> Ok tt).
Proof.
  assert (Hraise : forall k c v e, (k, c) ∈ assignments -> pm !! k = Some v ->
                     convert I c v = Raise e ->
                     (assign_all I pm assignments cfg).1 <> Ok tt).
  { intros k c v e Hin Hsome Hconv Hok.
    destruct (assign_all I pm assignments cfg) as [[[]|] cfg'] eqn:Hrun;
      [|done].
    destruct (assign_all_inv _ _ _ _ _ Hrun _ Hin) as [w Hw].
    apply fetch_ok in Hw as (v' & Hv' & Hw). congruence. }
  rewrite set_values_assignments. split; [|split; [|split]]; [| |done|]; cycle 2.
  { intros k t v e Ht Hne Hsome Hconv.
    destruct (spec_declared_type_inv k t Ht) as [c Hin].
    apply (Hraise k c v e Hin Hsome).
    rewrite (convert_coerce I c t); [done|].
    by rewrite <- (spec_declared_type_assignments k c). }
  - intros cfg' Hok.
    pose proof (assign_all_inv _ _ _ _ _ Hok) as Hall.
    rewrite assign_all_ok in Hok by done. injection Hok as <-.
    assert (Hget : forall kc w, kc ∈ assignments -> fetch I pm kc = Ok w ->
                     assigned I pm assignments cfg !! kc.1 = Some w)
      by (intros; by apply assigned_lookup; auto using assignments_NoDup).
    split; [|split].
    + intros k t Ht Hne. destruct (spec_declared_type_inv k t Ht) as [c Hin].
      destruct (Hall _ Hin) as [w Hw].
      assert (Hc : conv_type c = Some t)
        by (by rewrite <- (spec_declared_type_assignments k c)).
      destruct (fetch_ok _ _ _ _ _ Hw) as (v & Hv & Hconv).
      exists v, w. split; [done|]. split; [by rewrite <- (convert_coerce I c)|].
      split; [by apply (Hget (k, c))|].
      by apply (fetch_type I pm (k, c)).
    + assert (Hin : ("config_file", CKeep) ∈ assignments)
        by (unfold assignments; repeat constructor).
      destruct (Hall _ Hin) as [w Hw].
      exists w. split; [|by apply (Hget ("config_file", CKeep))].
      unfold fetch, getitem, mbind, Result_bind in Hw. simpl in Hw.
      destruct (pm !! "config_file"); by simplify_eq.
    + intros Hpm.
      assert (Hin : ("epochs", CInt) ∈ assignments)
        by (unfold assignments; repeat constructor).
      apply (Hget ("epochs", CInt)); [done|].
      unfold fetch, getitem, mbind, Result_bind. simpl. by rewrite Hpm.
  - intros k c Hin Hnone Hok.
    destruct (assign_all I pm assignments cfg) as [[[]|] cfg'] eqn:Hrun;
      [|done].
    destruct (assign_all_inv _ _ _ _ _ Hrun _ Hin) as [w Hw].
    unfold fetch, getitem, mbind, Result_bind in Hw. simpl in Hw.
    by rewrite Hnone in Hw.
Qed.

(** The claim C2 as the specification words it fails: [config_file] is
    assigned without a conversion, so [None] stays [None], which is not a
    string. *)
Lemma set_values_config_file_uncoerced :
  ~ (forall (I : Interp) (pm cfg cfg' : gmap string PyVal),
       set_values I pm cfg = (Ok tt, cfg') ->
       forall k t, spec_declared_type k = Some t ->
                   exists v, cfg' !! k = Some v /\ type_of v = t).
Proof.
  intros H.
  pose (pm := <["config_file" := VNone]> stringly_map).
  assert (Hrun : set_values example_interp2 pm ∅
                 = (Ok tt, (set_values example_interp2 pm ∅).2))
    by (vm_compute; reflexivity).
  destruct (H _ _ _ _ Hrun "config_file" TStr eq_refl) as (v & Hv & Ht).
  vm_compute in Hv. by simplify_eq.
Qed.

Lemma set_values_coerces_witness :
  (forall k t, spec_declared_type k = Some t -> k <> "config_file" ->
               exists v w, stringly_map !! k = Some v /\
                           coerce example_interp2 t v = Ok w /\
                           (set_values example_interp2 stringly_map ∅).2 !! k
                           = Some w /\ type_of w = t) /\
  (exists v, stringly_map !! "config_file" = Some v /\
             (set_values example_interp2 stringly_map ∅).2 !! "config_file"
             = Some v) /\
  (stringly_map !! "epochs" = Some (VStr "100") ->
   (set_values example_interp2 stringly_map ∅).2 !! "epochs"
   = Some (VInt 100)).
Proof.
  apply (proj1 (set_values_coerces example_interp2 stringly_map ∅)).
  vm_compute. reflexivity.
Defined.

Lemma fetch_raise I pm k c e :
  fetch I pm (k, c) = Raise e <->
  (pm !! k = None /\ e = KeyError k) \/
  (exists v, pm !! k = Some v /\ convert I c v = Raise e).
Proof.
  unfold fetch, getitem, mbind, Result_bind. simpl.
  destruct (pm !! k) as [v|]; split.
  - intros H. right. eauto.
  - intros [[? _]|(v' & [= <-] & H)]; done.
  - intros [= <-]. by left.
  - intros [[_ ->]|(v' & ? & _)]; done.
Qed.

(** C9. [set_values] is not atomic. It makes its assignments in the order
    [assignments]; when the first entry whose key is absent from the input
    mapping, or whose value cannot be converted, is [k], the operation
    raises, every entry before [k] holds its new, converted value, and [k]
    and every entry after it hold what they held before. *)
Theorem set_values_not_atomic I pm cfg pre k c post e :
  assignments = (pre ++ (k, c) :: post)%list ->
  (forall kc, kc ∈ pre -> exists w, fetch I pm kc = Ok w) ->
  (pm !! k = None /\ e = KeyError k) \/
  (exists v, pm !! k = Some v /\ convert I c v = Raise e) ->
  exists cfg',
    set_values I pm cfg = (Raise e, cfg') /\
    (forall kc w, kc ∈ pre -> fetch I pm kc = Ok w ->
                  cfg' !! kc.1 = Some w) /\
    cfg' !! k = cfg !! k /\
    (forall kc, kc ∈ post -> cfg' !! kc.1 = cfg !! kc.1).
Proof.
  intros Hsplit Hpre Hbad%fetch_raise.
  pose proof assignments_NoDup as Hnd. rewrite Hsplit in Hnd.
  rewrite fmap_app, fmap_cons in Hnd.
  apply NoDup_app in Hnd as (Hnd1 & Hdisj & Hnd2).
  apply NoDup_cons in Hnd2 as [Hk _].
  exists (assigned I pm pre cfg). split; [|split; [|split]].
  - rewrite set_values_assignments, Hsplit. by apply assign_all_raise.
  - intros kc w Hin Hw. by apply assigned_lookup.
  - apply assigned_other. intros Hin. apply (Hdisj _ Hin). set_solver.
  - intros kc Hin. apply assigned_other. intros Hin'.
    apply (Hdisj _ Hin'). apply elem_of_cons. right.
    by apply list_elem_of_fmap_2.
Qed.

Lemma set_values_not_atomic_witness :
  exists cfg',
    set_values example_interp partial_map (Param_init example_interp)
      = (Raise (KeyError "epochs"), cfg') /\
    (forall kc w,
        kc ∈ [("dataset_folder", CStr); ("model_name", CStr)] ->
        fetch example_interp partial_map kc = Ok w ->
        cfg' !! kc.1 = Some w) /\
    cfg' !! "epochs" = Param_init example_interp !! "epochs" /\
    (forall kc,
        kc ∈ [("batch_size", CInt); ("input_size", CInt); ("workers", CInt);
              ("optimizer", CStr); ("weight_decay", CFloat);
              ("momentum", CFloat); ("lr0", CFloat); ("lrf", CFloat);
              ("config_file", CKeep); ("dataset_split_ratio", CFloat);
              ("output_folder", CStr)] ->
        cfg' !! kc.1 = Param_init example_interp !! kc.1).
Proof.
  apply (set_values_not_atomic example_interp partial_map
           (Param_init example_interp)
           [("dataset_folder", CStr); ("model_name", CStr)] "epochs" CInt
           [("batch_size", CInt); ("input_size", CInt); ("workers", CInt);
            ("optimizer", CStr); ("weight_decay", CFloat);
            ("momentum", CFloat); ("lr0", CFloat); ("lrf", CFloat);
            ("config_file", CKeep); ("dataset_split_ratio", CFloat);
            ("output_folder", CStr)] (KeyError "epochs")).
  - reflexivity.
  - intros kc Hin. apply list_elem_of_In in Hin. simpl in Hin.
    destruct Hin as [<-|[<-|[]]]; eexists; reflexivity.
  - left. split; reflexivity.
Defined.

Example set_values_partial_update :
  (set_values example_interp partial_map (Param_init example_interp)).1
    = Raise (KeyError "epochs") /\
  (set_values example_interp partial_map (Param_init example_interp)).2
    !! "model_name" = Some (VStr "yolov8n-cls") /\
  (set_values example_interp partial_map (Param_init example_interp)).2
    !! "epochs" = Some (VInt 100).
Proof. repeat split; reflexivity. Qed.

(** C3. A parameter object as [__init__] leaves it holds the default table
    and nothing else: model ["yolov8m-cls"], 100 epochs, batches of 8, images
    of 640, split ratio 0.9, no workers, optimizer ["auto"], weight decay
    0.0005, momentum 0.937, [lr0] and [lrf] 0.01, no [config_file], the
    folder ["dataset"] under the directory of the module and the folder
    ["runs/"] appended to that directory. The floats are the binary64
    numbers nearest to the decimals, as Python reads them. *)
Theorem Param_init_defaults I :
  Param_init I =
  list_to_map
    [("dataset_folder", VStr (PosixPath.join (module_dir I) "dataset"));
     ("model_name", VStr "yolov8m-cls");
     ("epochs", VInt 100);
     ("batch_size", VInt 8);
     ("input_size", VInt 640);
     ("dataset_split_ratio", VFloat 0.9%float);
     ("workers", VInt 0);
     ("optimizer", VStr "auto");
     ("weight_decay", VFloat 0.0005%float);
     ("momentum", VFloat 0.937%float);
     ("lr0", VFloat 0.01%float);
     ("lrf", VFloat 0.01%float);
     ("config_file", VStr "");
     ("output_folder", VStr (module_dir I ++ "/runs/"))] /\
  PosixPath.components (PosixPath.join (module_dir I) "dataset")
  = (PosixPath.components (module_dir I) ++ ["dataset"])%list.
Proof.
  split.
  - apply map_eq; intros k. unfold Param_init, TaskParam_init.
    cbn [list_to_map foldr uncurry].
    repeat (rewrite !lookup_insert; case_decide; [done|]); done.
  - apply components_join; [done|]. unfold sep_free. vm_compute.
    repeat (constructor; [discriminate|]). constructor.
Qed.

(** * Further properties *)

(** The prefix of a list that leaves out its last two elements. *)
Ltac exists_prefix n :=
  lazymatch goal with
  | |- exists pre, ?l = _ => exists (take (length l - n) l); reflexivity
  end.

(** X1. Every run starts by telling the host ([begin_task_run]); it tells
    the host it has ended ([end_task_run]) exactly when it returns, and then
    the progress step and the end are its last two calls. *)
Theorem run_lifecycle E s :
  (exists rest, events E s = BeginTaskRun :: rest) /\
  ((run E s).1 = Ok tt <-> EndTaskRun ∈ events E s) /\
  ((run E s).1 = Ok tt ->
   exists pre, events E s = (pre ++ [EmitStepProgress; EndTaskRun])%list).
Proof.
  run_exec E s.
  all: split; [by eexists|].
  all: split; [split; [try done; intros _; repeat constructor
                      | try done; intros Hin; elem_cases Hin]|].
  all: try done.
  all: intros _; exists_prefix 2.
Qed.

(** X2. A run trains at most once, and only after the model object was
    built, the callback registered and the two directories made, in that
    order; nothing but the progress step and the end of the run follows the
    training call. *)
Theorem train_comes_last E s kw :
  Train kw ∈ events E s ->
  exists pre a p1 p2 post,
    events E s
    = (pre ++ [NewYOLO a; AddCallback "on_fit_epoch_end"; Makedirs p1;
               Makedirs p2; Train kw] ++ post)%list /\
    (pre = [BeginTaskRun] \/ exists c, pre = [BeginTaskRun; OpenFile c]) /\
    (post = [] \/ post = [EmitStepProgress; EndTaskRun]) /\
    count is_train (events E s) = 1.
Proof.
  run_exec E s; intros Hin; elem_cases Hin; simplify_eq.
  all: solve
         [ (exists [BeginTaskRun] + eexists [BeginTaskRun; OpenFile _]);
           eexists _, _, _;
           (exists [] + exists [EmitStepProgress; EndTaskRun]);
           split; [reflexivity|];
           split; [(by left) + (right; by eexists)|];
           split; [(by left) + (by right)|reflexivity] ].
Qed.

(** X3. Whatever its outcome, [run] leaves [cfg], the input path and
    [stop_training] as they were, and [self.device] is the CUDA device when
    CUDA is available and the CPU otherwise. *)
Theorem run_task_fields E s :
  cfg (run E s).2 = cfg s /\
  input_path (run E s).2 = input_path s /\
  stop_training (run E s).2 = stop_training s /\
  device (run E s).2
  = VDevice (if cuda_is_available E then "cuda" else "cpu").
Proof.
  run_exec E s; by destruct (cuda_is_available E).
Qed.

(** X4. When the training call raises, [run] raises the same exception
    right after it: no progress step, no [end_task_run], and the output
    directory made for the run stays. *)
Theorem train_failure_propagates E s kw e :
  Train kw ∈ events E s -> model_train E kw = Raise e ->
  (run E s).1 = Raise e /\
  (EmitStepProgress ∉ events E s) /\ (EndTaskRun ∉ events E s) /\
  (exists pre, events E s = (pre ++ [Train kw])%list) /\
  exists out,
    cfg s !! "output_folder" = Some (VStr out) /\
    PosixPath.components (PosixPath.join out (experiment_name (now E)))
      ∈ dirs (run E s).2.
Proof.
  unfold experiment_name.
  intros Hin He. revert Hin.
  run_exec E s; intros Hin; elem_cases Hin; simplify_eq.
  all: try congruence.
  all: split; [congruence|].
  all: split; [intros H; elem_cases H|].
  all: split; [intros H; elem_cases H|].
  all: split; [exists_prefix 1|].
  all: eexists; split; [done|].
  all: apply elem_of_union; left; apply elem_of_list_to_set.
  all: match goal with H : PosixPath.components _ = _ :: _ |- _ =>
         rewrite H end.
  all: apply ancestors_self.
Qed.

(** X5. When the configuration file cannot be opened, or cannot be parsed,
    [run] raises that exception after [begin_task_run] and [open] only:
    nothing on the task or on the file system has changed but the device. *)
Theorem config_file_unreadable E s c e :
  cfg s !! "config_file" = Some c -> Py.truthy c = true ->
  open_read E c = Raise e \/
  (exists text, open_read E c = Ok text /\ yaml_safe_load E text = Raise e) ->
  (run E s).1 = Raise e /\
  events E s = [BeginTaskRun; OpenFile c] /\
  dirs (run E s).2 = dirs s /\
  model (run E s).2 = model s /\
  model_name_file (run E s).2 = model_name_file s.
Proof.
  intros Hc Ht [Ho|(text & Ho & Hy)]; run_exec E s; done.
Qed.

(** X6. A configuration file whose document is not a dictionary (an empty
    file gives [None]) makes [run] raise [TypeError] when it looks for
    ["model"], before the model is built or a directory made. *)
Theorem config_document_not_mapping E s c text doc :
  cfg s !! "config_file" = Some c -> Py.truthy c = true ->
  open_read E c = Ok text -> yaml_safe_load E text = Ok doc ->
  type_of doc <> TDict ->
  (run E s).1 = Raise TypeError /\
  events E s = [BeginTaskRun; OpenFile c] /\
  dirs (run E s).2 = dirs s /\
  model (run E s).2 = model s.
Proof.
  intros Hc Ht Ho Hy Hd.
  assert (Hs : subscript doc "model" = Raise TypeError) by by destruct doc.
  run_exec E s; done.
Qed.

(** X7. When [YOLO(artifact)] raises, [run] raises the same exception
    before any directory is made or training started; [self.model] keeps
    its old value while [self.model_name_file] already names the artifact. *)
Theorem model_construction_fails E s a e :
  NewYOLO a ∈ events E s -> YOLO E a = Raise e ->
  (run E s).1 = Raise e /\
  (forall p, Makedirs p ∉ events E s) /\
  (forall kw, Train kw ∉ events E s) /\
  dirs (run E s).2 = dirs s /\
  model (run E s).2 = model s /\
  model_name_file (run E s).2 = a.
Proof.
  intros Hin He. revert Hin.
  run_exec E s; intros Hin; elem_cases Hin; simplify_eq.
  all: try congruence.
  all: split; [congruence|].
  all: split; [intros ? H; elem_cases H|].
  all: split; [intros ? H; elem_cases H|done].
Qed.

Lemma keywords_raise d k v :
  (k, v) ∈ d -> type_of k <> TStr -> keywords d = Raise TypeError.
Proof.
  induction d as [|[k' v'] d IH]; intros Hin Hk; [by apply elem_of_nil in Hin|].
  apply elem_of_cons in Hin as [[= <- <-]|Hin].
  - by destruct k.
  - simpl. destruct k'; try done. by rewrite IH.
Qed.

(** X8. A configuration document with a key that is not a string cannot
    be unpacked into keyword arguments: the run raises [TypeError] without
    a training call, after the model was built and the output directory
    made. *)
Theorem config_keys_must_be_strings E s c text d k v m out :
  valid_datetime (now E) ->
  cfg s !! "config_file" = Some c -> Py.truthy c = true ->
  open_read E c = Ok text -> yaml_safe_load E text = Ok (VDict d) ->
  (k, v) ∈ d -> type_of k <> TStr ->
  dict_lookup "model" d = Some m -> YOLO E m = Ok tt ->
  cfg s !! "output_folder" = Some (VStr out) ->
  PosixPath.components out <> [] ->
  makedirs_error E out = None ->
  makedirs_error E (PosixPath.join out (experiment_name (now E))) = None ->
  (run E s).1 = Raise TypeError /\
  (forall kw, Train kw ∉ events E s) /\
  output_dir out (now E) ∈ dirs (run E s).2.
Proof.
  intros V Hc Ht Ho Hy Hin Hk Hm HY Hout Hne Hm1 Hm2.
  pose proof (keywords_raise d k v Hin Hk) as Hkw.
  assert (Hs : subscript (VDict d) "model" = Ok m)
    by (unfold subscript; by rewrite Hm).
  assert (Hj : PosixPath.components
                 (PosixPath.join out (experiment_name (now E)))
               = output_dir out (now E)).
  { apply components_join;
      auto using experiment_name_nonempty, experiment_name_sep_free. }
  assert (Hj' : output_dir out (now E) <> []).
  { unfold output_dir. by destruct (PosixPath.components out). }
  rewrite <- Hj in Hj' |- *. clear Hj.
  unfold experiment_name in *.
  run_exec E s.
  all: try (unfold items in *; simplify_eq; congruence).
  all: try done.
  all: split; [done|].
  all: split; [intros ? H; elem_cases H|].
  all: apply elem_of_union; left; apply elem_of_list_to_set, ancestors_self.
Qed.

(** X9. With an empty [config_file], a [cfg] that lacks one of the
    entries [run] reads never trains and never returns. *)
Theorem missing_configuration_entry E s c k :
  cfg s !! "config_file" = Some c -> Py.truthy c = false ->
  k ∈ default_mode_keys -> cfg s !! k = None ->
  (run E s).1 <> Ok tt /\ (forall kw, Train kw ∉ events E s).
Proof.
  intros Hc Ht Hk Hnone. unfold default_mode_keys in Hk.
  elem_cases Hk; subst k.
  all: run_exec E s; try done.
  all: split; [done|]; intros ? H; elem_cases H.
Qed.

(** X10. A [cfg] without the entry [config_file] makes [run] raise
    [KeyError] at once, after [begin_task_run] alone. *)
Theorem missing_config_file_entry E s :
  cfg s !! "config_file" = None ->
  (run E s).1 = Raise (KeyError "config_file") /\
  events E s = [BeginTaskRun] /\
  dirs (run E s).2 = dirs s.
Proof. intros Hc. run_exec E s; done. Qed.

(** X11. Once the model is built, an [output_folder] that is the empty
    string makes [run] raise [FileNotFoundError], and one that is not a
    string [TypeError]; no directory is made and nothing trained. *)
Theorem output_folder_must_be_a_path E s v :
  AddCallback "on_fit_epoch_end" ∈ events E s ->
  cfg s !! "output_folder" = Some v ->
  (forall out, v = VStr out -> PosixPath.components out = []) ->
  (run E s).1 = Raise (match v with
                       | VStr _ => FileNotFoundError
                       | _ => TypeError
                       end) /\
  dirs (run E s).2 = dirs s /\
  (forall kw, Train kw ∉ events E s).
Proof.
  intros Hcb Hout Hv. revert Hcb.
  run_exec E s; intros Hin; elem_cases Hin.
  all: try (split; [done|]; split; [done|]; intros ? H; elem_cases H).
  all: match goal with
       | H : PosixPath.components ?o = _ :: _ |- _ =>
           rewrite (Hv o eq_refl) in H; discriminate
       end.
Qed.

Lemma ancestors_snoc (l : list string) x :
  ancestors (l ++ [x]) = (ancestors l ++ [l ++ [x]])%list.
Proof.
  induction l as [|c l IH]; [done|].
  cbn [app ancestors]. rewrite IH, fmap_app. done.
Qed.

Lemma output_dir_ancestors (out : string) (d : DateTime)
    (ds : gset (list string)) :
  list_to_set (ancestors (output_dir out d))
    ∪ (list_to_set (ancestors (PosixPath.components out)) ∪ ds)
  = {[ output_dir out d ]}
      ∪ (list_to_set (ancestors (PosixPath.components out)) ∪ ds).
Proof.
  unfold output_dir at 1. rewrite ancestors_snoc, list_to_set_app_L.
  fold (output_dir out d). set_solver.
Qed.

(** X12. With an empty [config_file], a string model name, a makeable
    output folder, the entries of the hyperparameters present and the
    library calls returning, [run] returns after exactly these calls, and the
    directories afterwards are those before, the output folder, the ones
    above it, and the directory of the run. *)
Theorem run_default_succeeds E s c name out epochs imgsz batch workers
    optimizer momentum weight_decay lr0 lrf :
  valid_datetime (now E) ->
  cfg s !! "config_file" = Some c -> Py.truthy c = false ->
  cfg s !! "model_name" = Some (VStr name) ->
  YOLO E (VStr (name ++ ".pt")) = Ok tt ->
  cfg s !! "output_folder" = Some (VStr out) ->
  PosixPath.components out <> [] ->
  makedirs_error E out = None ->
  makedirs_error E (PosixPath.join out (experiment_name (now E))) = None ->
  cfg s !! "epochs" = Some epochs ->
  cfg s !! "input_size" = Some imgsz ->
  cfg s !! "batch_size" = Some batch ->
  cfg s !! "workers" = Some workers ->
  cfg s !! "optimizer" = Some optimizer ->
  cfg s !! "momentum" = Some momentum ->
  cfg s !! "weight_decay" = Some weight_decay ->
  cfg s !! "lr0" = Some lr0 ->
  cfg s !! "lrf" = Some lrf ->
  model_train E
    [("data", input_path s); ("epochs", epochs); ("imgsz", imgsz);
     ("batch", batch); ("workers", workers); ("optimizer", optimizer);
     ("momentum", momentum); ("weight_decay", weight_decay); ("lr0", lr0);
     ("lrf", lrf); ("pretrained", VBool true);
     ("device", VDevice (if cuda_is_available E then "cuda" else "cpu"));
     ("project", VStr (PosixPath.join out (experiment_name (now E))))]
  = Ok tt ->
  (run E s).1 = Ok tt /\
  events E s
  = [BeginTaskRun; NewYOLO (VStr (name ++ ".pt"));
     AddCallback "on_fit_epoch_end"; Makedirs (VStr out);
     Makedirs (VStr (PosixPath.join out (experiment_name (now E))));
     Train
       [("data", input_path s); ("epochs", epochs); ("imgsz", imgsz);
        ("batch", batch); ("workers", workers); ("optimizer", optimizer);
        ("momentum", momentum); ("weight_decay", weight_decay);
        ("lr0", lr0); ("lrf", lrf); ("pretrained", VBool true);
        ("device", VDevice (if cuda_is_available E then "cuda" else "cpu"));
        ("project", VStr (PosixPath.join out (experiment_name (now E))))];
     EmitStepProgress; EndTaskRun] /\
  model (run E s).2 = VStr (name ++ ".pt") /\
  dirs (run E s).2
  = {[ output_dir out (now E) ]}
      ∪ (list_to_set (ancestors (PosixPath.components out)) ∪ dirs s).
Proof.
  intros V Hc Ht Hn HY Hout Hne Hm1 Hm2 H1 H2 H3 H4 H5 H6 H7 H8 H9 Htr.
  assert (Hj : PosixPath.components
                 (PosixPath.join out (experiment_name (now E)))
               = output_dir out (now E)).
  { apply components_join;
      auto using experiment_name_nonempty, experiment_name_sep_free. }
  assert (Hj' : output_dir out (now E) <> []).
  { unfold output_dir. by destruct (PosixPath.components out). }
  rewrite <- (output_dir_ancestors out (now E) (dirs s)).
  rewrite <- Hj in Hj' |- *. clear Hj.
  remember (list_to_set (ancestors (PosixPath.components out))) as anc
    eqn:Hanc.
  assert (Hdev : (if cuda_is_available E then VDevice "cuda"
                  else VDevice "cpu")
                 = VDevice (if cuda_is_available E then "cuda" else "cpu"))
    by by destruct (cuda_is_available E).
  unfold experiment_name in *.
  run_exec E s; try done.
  all: try (rewrite Hdev in *; congruence).
  by rewrite Hdev.
Qed.

(** X13. With a [config_file] that parses to a dictionary with string keys
    and a ["model"] entry, a makeable output folder and the library calls
    returning, [run] returns after exactly these calls; the model is built
    from the ["model"] entry. *)
Theorem run_config_succeeds E s c text d m kw out :
  valid_datetime (now E) ->
  cfg s !! "config_file" = Some c -> Py.truthy c = true ->
  open_read E c = Ok text -> yaml_safe_load E text = Ok (VDict d) ->
  dict_lookup "model" d = Some m -> YOLO E m = Ok tt ->
  cfg s !! "output_folder" = Some (VStr out) ->
  PosixPath.components out <> [] ->
  makedirs_error E out = None ->
  makedirs_error E (PosixPath.join out (experiment_name (now E))) = None ->
  keywords d = Ok kw -> model_train E kw = Ok tt ->
  (run E s).1 = Ok tt /\
  events E s
  = [BeginTaskRun; OpenFile c; NewYOLO m; AddCallback "on_fit_epoch_end";
     Makedirs (VStr out);
     Makedirs (VStr (PosixPath.join out (experiment_name (now E))));
     Train kw; EmitStepProgress; EndTaskRun] /\
  model (run E s).2 = m /\
  dirs (run E s).2
  = {[ output_dir out (now E) ]}
      ∪ (list_to_set (ancestors (PosixPath.components out)) ∪ dirs s).
Proof.
  intros V Hc Ht Ho Hy Hm HY Hout Hne Hm1 Hm2 Hkw Htr.
  assert (Hs : subscript (VDict d) "model" = Ok m)
    by (unfold subscript; by rewrite Hm).
  assert (Hj : PosixPath.components
                 (PosixPath.join out (experiment_name (now E)))
               = output_dir out (now E)).
  { apply components_join;
      auto using experiment_name_nonempty, experiment_name_sep_free. }
  assert (Hj' : output_dir out (now E) <> []).
  { unfold output_dir. by destruct (PosixPath.components out). }
  rewrite <- (output_dir_ancestors out (now E) (dirs s)).
  rewrite <- Hj in Hj' |- *. clear Hj.
  unfold experiment_name in *.
  run_exec E s; done.
Qed.

Lemma cfg_blind_bind {A B} (m : M State A) (k : A -> M State B) :
  cfg_blind m -> (forall a, cfg_blind (k a)) -> cfg_blind (m ≫= k).
Proof.
  intros Hm Hk s c'. unfold mbind, M_bind. rewrite Hm.
  destruct (m s) as [[a|e] s1]; simpl; [apply Hk | done].
Qed.

Ltac cfg_blind_step :=
  lazymatch goal with
  | |- cfg_blind (_ ≫= _) => apply cfg_blind_bind; [|intros ?]
  | |- cfg_blind (makedirs _ _ _) => unfold makedirs
  | |- cfg_blind (train _ _) => unfold train
  | |- cfg_blind (if ?b then _ else _) => destruct b
  | |- cfg_blind (match ?x with _ => _ end) => destruct x
  | |- cfg_blind _ => by intros [] ?
  end.

Lemma getitem_agree (c c' : gmap string PyVal) k :
  c' !! k = c !! k -> getitem c' k = getitem c k.
Proof. unfold getitem. by intros ->. Qed.

(** X14. [run] depends on [cfg] through the entries [run_keys] only: with
    any other [cfg] that agrees on them, the result, the calls and the final
    state are the same. [dataset_folder] and [dataset_split_ratio] are not
    among them. *)
Theorem run_reads_only E s c' :
  (forall k, k ∈ run_keys -> c' !! k = cfg s !! k) ->
  run E (with_cfg c' s) = ((run E s).1, with_cfg c' (run E s).2).
Proof.
  intros Hk.
  assert (Hall : Forall (fun k => getitem c' k = getitem (cfg s) k) run_keys).
  { apply Forall_forall. intros k Hin. by apply getitem_agree, Hk. }
  unfold run_keys, default_mode_keys in Hall.
  repeat match goal with
         | H : Forall _ (_ :: _) |- _ => apply Forall_cons in H as [? H]
         end.
  clear Hall Hk. unfold run.
  lazymatch goal with
  | |- context [gets cfg ≫= ?k] => set (K := k)
  end.
  set (s1 := (log BeginTaskRun s).2).
  change (K c' (with_cfg c' s1)
          = ((K (cfg s) s1).1, with_cfg c' (K (cfg s) s1).2)).
  assert (HK : K c' = K (cfg s)).
  { subst K. cbv beta.
    repeat match goal with
           | H : getitem c' _ = _ |- _ => rewrite H; clear H
           end.
    reflexivity. }
  rewrite HK. generalize (cfg s) as c. intros c. clear.
  assert (Hb : cfg_blind (K c)); [|apply Hb].
  subst K. cbv beta. repeat cfg_blind_step.
Qed.

Lemma assign_all_state I pm kcs cfg :
  (assign_all I pm kcs cfg).2 = assigned I pm kcs cfg.
Proof.
  revert cfg. induction kcs as [|kc kcs IH]; intros cfg; [done|].
  cbn [assign_all assigned]. unfold mbind at 1, M_bind, lift.
  destruct (fetch I pm kc) as [w|e]; [|done]. apply IH.
Qed.

Lemma assign_all_agree I pm pm' kcs cfg :
  (forall kc, kc ∈ kcs -> fetch I pm' kc = fetch I pm kc) ->
  assign_all I pm' kcs cfg = assign_all I pm kcs cfg.
Proof.
  revert cfg. induction kcs as [|kc kcs IH]; intros cfg Hag; [done|].
  cbn [assign_all]. unfold mbind at 1 3, M_bind, lift.
  rewrite (Hag kc) by set_solver.
  destruct (fetch I pm kc) as [w|e]; [|done].
  apply IH. intros ??. apply Hag. set_solver.
Qed.

Lemma assign_all_raise_inv I pm kcs cfg e :
  (assign_all I pm kcs cfg).1 = Raise e ->
  exists kc, kc ∈ kcs /\ fetch I pm kc = Raise e.
Proof.
  revert cfg. induction kcs as [|kc kcs IH]; intros cfg; [done|].
  cbn [assign_all]. unfold mbind at 1, M_bind, lift.
  destruct (fetch I pm kc) as [w|e'] eqn:Hf.
  - intros (kc' & Hin & Hf')%IH. exists kc'. split; [set_solver|done].
  - simpl. intros [= ->]. exists kc. split; [set_solver|done].
Qed.

Lemma assigned_id I pm kcs cfg :
  (forall kc w, kc ∈ kcs -> fetch I pm kc = Ok w -> cfg !! kc.1 = Some w) ->
  assigned I pm kcs cfg = cfg.
Proof.
  induction kcs as [|kc kcs IH]; intros Hid; [done|].
  cbn [assigned]. destruct (fetch I pm kc) as [w|e] eqn:Hf; [|done].
  rewrite insert_id by (apply Hid; [set_solver|done]).
  apply IH. intros ????. apply Hid; [set_solver|done].
Qed.

Lemma convert_typed I c v :
  conv_type c = Some (type_of v) -> convert I c v = Ok v.
Proof. destruct c, v; simpl; try done. Qed.

Lemma convert_raise I c v e :
  convert I c v = Raise e ->
  (c = CStr /\
   ((exists z, v = VInt z /\ e = ValueError /\
               Py.too_many_digits (int_max_str_digits I) (Py.decimal_digits z)
               = true) \/
    ((type_of v = TFloat \/ type_of v = TList \/ type_of v = TDict) /\
     repr I v = Raise e))) \/
  ((c = CInt \/ c = CFloat) /\
   (e = TypeError \/ e = ValueError \/ e = OverflowError)).
Proof.
  destruct c; simpl; [| | |done].
  - unfold str_, Py.str. intros H. left. split; [done|].
    destruct v as [|[]|z|f|s|k|l|d]; simpl; try done.
    + left. exists z.
      destruct (Py.too_many_digits _ _); [by simplify_eq|done].
    + right. destruct (repr I _); [done|]. split; [eauto|congruence].
    + right. destruct (repr I _); [done|]. split; [eauto|congruence].
    + right. destruct (repr I _); [done|]. split; [eauto|congruence].
  - unfold int_, Py.int, Py.int_of_float. intros H. right.
    split; [by left|].
    repeat case_match; simplify_eq; eauto.
  - unfold float_, Py.float, Py.float_of_Z. intros H. right.
    split; [by right|].
    repeat case_match; simplify_eq; eauto.
Qed.

(** X15. Whatever its outcome, [set_values] leaves every entry of [cfg]
    other than the fourteen it assigns as it was. *)
Theorem set_values_other_entries I pm cfg k :
  k ∉ assignments.*1 -> (set_values I pm cfg).2 !! k = cfg !! k.
Proof.
  intros Hk. rewrite set_values_assignments, assign_all_state.
  by apply assigned_other.
Qed.

(** X16. [set_values] reads fourteen keys of the input mapping and no
    other: two mappings that agree on them give the same result and the same
    [cfg]. *)
Theorem set_values_reads_only I pm pm' cfg :
  (forall k, k ∈ assignments.*1 -> pm' !! k = pm !! k) ->
  set_values I pm' cfg = set_values I pm cfg.
Proof.
  intros Hag. rewrite !set_values_assignments. apply assign_all_agree.
  intros [k c] Hin. unfold fetch, getitem. simpl.
  rewrite Hag; [done|]. by apply (list_elem_of_fmap_2 fst) in Hin.
Qed.

(** X17. [set_values] returns exactly when each of the fourteen keys is in
    the input mapping with a value its conversion accepts; the [cfg] it
    starts from plays no part. *)
Theorem set_values_succeeds_iff I pm cfg :
  (set_values I pm cfg).1 = Ok tt <->
  (forall k c, (k, c) ∈ assignments ->
               exists v w, pm !! k = Some v /\ convert I c v = Ok w).
Proof.
  rewrite set_values_assignments. split.
  - intros Hok k c Hin.
    destruct (assign_all I pm assignments cfg) as [r cfg'] eqn:Hrun.
    simpl in Hok. subst r.
    destruct (assign_all_inv _ _ _ _ _ Hrun _ Hin) as [w Hw].
    unfold fetch, getitem, mbind, Result_bind in Hw. simpl in Hw.
    destruct (pm !! k) as [v|]; [eauto|done].
  - intros Hall. rewrite assign_all_ok; [done|].
    intros [k c] Hin. destruct (Hall k c Hin) as (v & w & Hv & Hw).
    exists w. unfold fetch, getitem, mbind, Result_bind. simpl.
    by rewrite Hv.
Qed.

(** X18. Applying an accepted input mapping a second time changes
    nothing. *)
Theorem set_values_idempotent I pm cfg cfg' :
  set_values I pm cfg = (Ok tt, cfg') ->
  set_values I pm cfg' = (Ok tt, cfg').
Proof.
  rewrite !set_values_assignments. intros Hok.
  pose proof (assign_all_inv _ _ _ _ _ Hok) as Hall.
  rewrite assign_all_ok in Hok by done.
  assert (Hcfg : cfg' = assigned I pm assignments cfg) by congruence.
  clear Hok. subst cfg'. rewrite assign_all_ok by done.
  f_equal. apply assigned_id. intros kc w Hin Hw.
  by apply assigned_lookup; auto using assignments_NoDup.
Qed.

(** X19. Values that already have the type of their entry are accepted and
    stored as they are, whatever the float parser and [repr] are. *)
Theorem set_values_typed_input I pm cfg :
  (forall k c, (k, c) ∈ assignments ->
               exists v, pm !! k = Some v /\
                         (c = CKeep \/ conv_type c = Some (type_of v))) ->
  (set_values I pm cfg).1 = Ok tt /\
  (forall k, k ∈ assignments.*1 -> (set_values I pm cfg).2 !! k = pm !! k).
Proof.
  intros Hty.
  assert (Hf : forall kc, kc ∈ assignments ->
                 exists v, pm !! kc.1 = Some v /\ fetch I pm kc = Ok v).
  { intros [k c] Hin. destruct (Hty k c Hin) as (v & Hv & Hc).
    exists v. split; [done|].
    unfold fetch, getitem, mbind, Result_bind. simpl. rewrite Hv.
    destruct Hc as [->|Hc]; [done|by apply convert_typed]. }
  rewrite set_values_assignments, assign_all_ok
    by (intros kc Hin; destruct (Hf kc Hin) as (v & _ & ?); eauto).
  split; [done|]. intros k Hin. simpl.
  apply list_elem_of_fmap in Hin as ([k' c] & -> & Hin).
  destruct (Hf _ Hin) as (v & Hv & Hfv). rewrite Hv.
  apply (assigned_lookup I pm assignments cfg (k', c));
    auto using assignments_NoDup.
  intros kc' Hin'. destruct (Hf kc' Hin') as (v' & _ & ?). eauto.
Qed.

(** X20. A configuration that [set_values] produced is accepted as an
    input mapping and reproduces itself. *)
Theorem set_values_fixed_point I pm cfg cfg' :
  set_values I pm cfg = (Ok tt, cfg') ->
  set_values I cfg' cfg' = (Ok tt, cfg').
Proof.
  intros Hok. rewrite set_values_assignments in Hok.
  pose proof (assign_all_inv _ _ _ _ _ Hok) as Hall.
  rewrite assign_all_ok in Hok by done.
  assert (Hcfg : assigned I pm assignments cfg = cfg') by congruence.
  clear Hok.
  assert (Hst : forall kc, kc ∈ assignments ->
                  exists w, cfg' !! kc.1 = Some w /\ fetch I cfg' kc = Ok w).
  { intros [k c] Hin. destruct (Hall _ Hin) as [w Hw]. exists w.
    assert (Hl : cfg' !! k = Some w).
    { rewrite <- Hcfg.
      by apply (assigned_lookup I pm assignments cfg (k, c));
        auto using assignments_NoDup. }
    split; [done|].
    unfold fetch, getitem, mbind, Result_bind. simpl. rewrite Hl.
    destruct (conv_type c) as [t|] eqn:Hc.
    - apply convert_typed. rewrite Hc. f_equal. symmetry.
      by apply (fetch_type I pm (k, c)).
    - by destruct c. }
  rewrite set_values_assignments, assign_all_ok
    by (intros kc Hin; destruct (Hst kc Hin) as (w & _ & ?); eauto).
  f_equal. apply assigned_id. intros kc w Hin Hw.
  destruct (Hst kc Hin) as (w' & Hl & Hw'). congruence.
Qed.

(** X21. [set_values] raises [KeyError k] for a key [k] it reads that is
    absent, or else the exception of the conversion of an entry. From [int]
    and [float] that is [TypeError], [ValueError] or [OverflowError]. From
    [str] it is [ValueError] for an integer with more digits than the
    interpreter's limit allows, or what [repr] raises on a float, a list or
    a dictionary; [str] raises on no other value. *)
Theorem set_values_errors I pm cfg e :
  (set_values I pm cfg).1 = Raise e ->
  exists k c, (k, c) ∈ assignments /\
    ((pm !! k = None /\ e = KeyError k) \/
     (exists v, pm !! k = Some v /\ convert I c v = Raise e /\
        ((c = CStr /\
          ((exists z, v = VInt z /\ e = ValueError /\
                      Py.too_many_digits (int_max_str_digits I)
                                         (Py.decimal_digits z) = true) \/
           ((type_of v = TFloat \/ type_of v = TList \/ type_of v = TDict) /\
            repr I v = Raise e))) \/
         ((c = CInt \/ c = CFloat) /\
          (e = TypeError \/ e = ValueError \/ e = OverflowError))))).
Proof.
  rewrite set_values_assignments.
  intros ([k c] & Hin & Hf)%assign_all_raise_inv.
  exists k, c. split; [done|].
  apply fetch_raise in Hf as [?|(v & Hv & Hc)]; [by left|right].
  exists v. pose proof (convert_raise I c v e Hc). eauto.
Qed.

Lemma set_values_entry I pm cfg cfg' k c :
  set_values I pm cfg = (Ok tt, cfg') -> (k, c) ∈ assignments ->
  exists w, fetch I pm (k, c) = Ok w /\ cfg' !! k = Some w.
Proof.
  rewrite set_values_assignments. intros Hok Hin.
  pose proof (assign_all_inv _ _ _ _ _ Hok) as Hall.
  rewrite assign_all_ok in Hok by done.
  assert (Hcfg : cfg' = assigned I pm assignments cfg) by congruence.
  destruct (Hall _ Hin) as [w Hw]. exists w. split; [done|]. subst cfg'.
  by apply (assigned_lookup I pm assignments cfg (k, c));
    auto using assignments_NoDup.
Qed.

Lemma set_values_entry_typed I pm cfg cfg' k c t :
  set_values I pm cfg = (Ok tt, cfg') -> (k, c) ∈ assignments ->
  conv_type c = Some t ->
  exists w, cfg' !! k = Some w /\ type_of w = t.
Proof.
  intros Hok Hin Hc.
  destruct (set_values_entry I pm cfg cfg' k c Hok Hin) as (w & Hf & Hl).
  exists w. split; [done|]. by apply (fetch_type I pm (k, c)).
Qed.

(** X22. A configuration accepted by [set_values] with an empty
    [config_file] has every entry [run] needs: when the output folder can be
    made and the library calls return, the run returns, and its training
    call gets integers, floats and strings where the options are declared
    so. *)
Theorem configured_task_runs I E pm cfg0 s c out :
  set_values I pm cfg0 = (Ok tt, cfg s) ->
  pm !! "config_file" = Some c -> Py.truthy c = false ->
  cfg s !! "output_folder" = Some (VStr out) ->
  PosixPath.components out <> [] ->
  valid_datetime (now E) ->
  (forall a, YOLO E a = Ok tt) ->
  (forall p, makedirs_error E p = None) ->
  (forall kw, model_train E kw = Ok tt) ->
  (run E s).1 = Ok tt /\
  exists kw,
    Train kw ∈ events E s /\
    kw.*1 = mapped_fields /\
    type_of <$> kw.*2
    = [type_of (input_path s); TInt; TInt; TInt; TInt; TStr; TFloat; TFloat;
       TFloat; TFloat; TBool; TDevice; TStr].
Proof.
  intros Hok Hpm Ht Hout Hne V HY Hmk Htr.
  assert (Hin : forall k c, (k, c) ∈ assignments -> (k, c) ∈ assignments)
    by done.
  destruct (set_values_entry I pm cfg0 (cfg s) "config_file" CKeep Hok)
    as (w & Hf & Hc); [unfold assignments; repeat constructor|].
  unfold fetch, getitem, mbind, Result_bind in Hf. simpl in Hf.
  rewrite Hpm in Hf. injection Hf as <-.
  assert (Hty : forall k c t,
             (k, c) ∈ assignments -> conv_type c = Some t ->
             exists w, cfg s !! k = Some w /\ type_of w = t)
    by (intros; by eapply set_values_entry_typed).
  destruct (Hty "model_name" CStr TStr) as (mn & Hmn & Tmn);
    [unfold assignments; repeat constructor|done|].
  destruct (Hty "epochs" CInt TInt) as (v1 & H1 & T1);
    [unfold assignments; repeat constructor|done|].
  destruct (Hty "input_size" CInt TInt) as (v2 & H2 & T2);
    [unfold assignments; repeat constructor|done|].
  destruct (Hty "batch_size" CInt TInt) as (v3 & H3 & T3);
    [unfold assignments; repeat constructor|done|].
  destruct (Hty "workers" CInt TInt) as (v4 & H4 & T4);
    [unfold assignments; repeat constructor|done|].
  destruct (Hty "optimizer" CStr TStr) as (v5 & H5 & T5);
    [unfold assignments; repeat constructor|done|].
  destruct (Hty "momentum" CFloat TFloat) as (v6 & H6 & T6);
    [unfold assignments; repeat constructor|done|].
  destruct (Hty "weight_decay" CFloat TFloat) as (v7 & H7 & T7);
    [unfold assignments; repeat constructor|done|].
  destruct (Hty "lr0" CFloat TFloat) as (v8 & H8 & T8);
    [unfold assignments; repeat constructor|done|].
  destruct (Hty "lrf" CFloat TFloat) as (v9 & H9 & T9);
    [unfold assignments; repeat constructor|done|].
  destruct mn as [| | | |name| | |]; try done.
  clear Hty Hok Hin Hpm.
  assert (Hj : PosixPath.components
                 (PosixPath.join out (experiment_name (now E))) <> []).
  { rewrite components_join
      by auto using experiment_name_nonempty, experiment_name_sep_free.
    by destruct (PosixPath.components out). }
  unfold experiment_name in *.
  revert T1 T2 T3 T4 T5 T6 T7 T8 T9.
  run_exec E s; try done.
  all: try (by rewrite ?HY, ?Htr, ?Hmk in * ).
  intros T1 T2 T3 T4 T5 T6 T7 T8 T9. split; [done|].
  eexists. split; [repeat constructor|]. split; [done|]. simpl.
  rewrite T1, T2, T3, T4, T5, T6, T7, T8, T9.
  by destruct (cuda_is_available E).
Qed.

Lemma components_runs d : PosixPath.components (d ++ "/runs/") <> [].
Proof.
  unfold PosixPath.components.
  change (d ++ "/runs/") with (d ++ String PosixPath.sep "runs/").
  rewrite split_sep_app_sep, filter_app.
  intros H. apply app_eq_nil in H as [_ H]. apply app_eq_nil in H as [_ H].
  vm_compute in H. discriminate.
Qed.

(** X23. The task the plugin's factory creates without parameters, given a
    dataset path, trains ["yolov8m-cls.pt"] with the default hyperparameters
    into a directory named after the time under ["runs/"] of the module's
    directory, and returns. *)
Theorem default_task_runs I E fs data :
  valid_datetime (now E) ->
  YOLO E (VStr "yolov8m-cls.pt") = Ok tt ->
  makedirs_error E (module_dir I ++ "/runs/") = None ->
  makedirs_error E (PosixPath.join (module_dir I ++ "/runs/")
                      (experiment_name (now E))) = None ->
  model_train E (default_kwargs I E data) = Ok tt ->
  (create I get_process_factory None fs).1 = "train_yolo_v8_classification" /\
  (run E (with_input_path data (create I get_process_factory None fs).2)).1
  = Ok tt /\
  events E (with_input_path data (create I get_process_factory None fs).2)
  = [BeginTaskRun; NewYOLO (VStr "yolov8m-cls.pt");
     AddCallback "on_fit_epoch_end"; Makedirs (VStr (module_dir I ++ "/runs/"));
     Makedirs (VStr (PosixPath.join (module_dir I ++ "/runs/")
                       (experiment_name (now E))));
     Train (default_kwargs I E data); EmitStepProgress; EndTaskRun] /\
  output_dir (module_dir I ++ "/runs/") (now E)
    ∈ dirs (run E (with_input_path data
                     (create I get_process_factory None fs).2)).2.
Proof.
  intros V HY Hm1 Hm2 Htr. split; [done|].
  remember (with_input_path data (create I get_process_factory None fs).2)
    as s eqn:Hs.
  assert (Hcfg : cfg s = Param_init I) by by subst s.
  assert (Hip : input_path s = data) by by subst s.
  clear Hs.
  assert (Hj : PosixPath.components
                 (PosixPath.join (module_dir I ++ "/runs/")
                    (experiment_name (now E)))
               = output_dir (module_dir I ++ "/runs/") (now E)).
  { apply components_join;
      auto using experiment_name_nonempty, experiment_name_sep_free. }
  pose proof (components_runs (module_dir I)) as Hne.
  assert (Hj' : output_dir (module_dir I ++ "/runs/") (now E) <> []).
  { unfold output_dir.
    by destruct (PosixPath.components (module_dir I ++ "/runs/")). }
  rewrite <- Hj in Hj' |- *. clear Hj.
  assert (Hdev : (if cuda_is_available E then VDevice "cuda"
                  else VDevice "cpu")
                 = VDevice (if cuda_is_available E then "cuda" else "cpu"))
    by by destruct (cuda_is_available E).
  assert (Hl : forall k v, Param_init I !! k = Some v -> cfg s !! k = Some v)
    by (intros k v; by rewrite Hcfg).
  pose proof (Hl "config_file" _ eq_refl).
  pose proof (Hl "model_name" _ eq_refl).
  pose proof (Hl "output_folder" _ eq_refl).
  pose proof (Hl "epochs" _ eq_refl).
  pose proof (Hl "input_size" _ eq_refl).
  pose proof (Hl "batch_size" _ eq_refl).
  pose proof (Hl "workers" _ eq_refl).
  pose proof (Hl "optimizer" _ eq_refl).
  pose proof (Hl "momentum" _ eq_refl).
  pose proof (Hl "weight_decay" _ eq_refl).
  pose proof (Hl "lr0" _ eq_refl).
  pose proof (Hl "lrf" _ eq_refl).
  clear Hl Hcfg.
  unfold default_kwargs, experiment_name in *.
  change ("yolov8m-cls.pt") with ("yolov8m-cls" ++ ".pt") in *.
  run_exec E s; try done.
  all: try (rewrite Hdev in *; congruence).
  rewrite Hdev. split; [done|]. split; [done|].
  apply elem_of_union; left. apply elem_of_list_to_set.
  match goal with H : PosixPath.components _ = ?l |- ?l2 ∈ _ =>
    apply ancestors_self end.
Qed.

(** ** The further properties on examples *)

Lemma train_comes_last_witness :
  exists pre a p1 p2 post,
    events example_env example_state
    = (pre ++ [NewYOLO a; AddCallback "on_fit_epoch_end"; Makedirs p1;
               Makedirs p2; Train example_kwargs] ++ post)%list /\
    (pre = [BeginTaskRun] \/ exists c, pre = [BeginTaskRun; OpenFile c]) /\
    (post = [] \/ post = [EmitStepProgress; EndTaskRun]) /\
    count is_train (events example_env example_state) = 1.
Proof.
  apply (train_comes_last example_env example_state example_kwargs).
  vm_compute. repeat constructor.
Defined.

Lemma train_failure_propagates_witness :
  (run example_failing_train_env example_state).1
  = Raise (LibraryError "RuntimeError") /\
  (EmitStepProgress ∉ events example_failing_train_env example_state) /\
  (EndTaskRun ∉ events example_failing_train_env example_state) /\
  (exists pre, events example_failing_train_env example_state
               = (pre ++ [Train example_kwargs])%list) /\
  exists out,
    cfg example_state !! "output_folder" = Some (VStr out) /\
    PosixPath.components
      (PosixPath.join out (experiment_name (now example_failing_train_env)))
      ∈ dirs (run example_failing_train_env example_state).2.
Proof.
  apply (train_failure_propagates example_failing_train_env example_state
           example_kwargs (LibraryError "RuntimeError")).
  - vm_compute. repeat constructor.
  - reflexivity.
Defined.

Lemma config_file_unreadable_witness :
  (run example_env example_config_state).1 = Raise FileNotFoundError /\
  events example_env example_config_state
  = [BeginTaskRun; OpenFile (VStr "cfg.yaml")] /\
  dirs (run example_env example_config_state).2 = dirs example_config_state /\
  model (run example_env example_config_state).2
  = model example_config_state /\
  model_name_file (run example_env example_config_state).2
  = model_name_file example_config_state.
Proof.
  apply (config_file_unreadable example_env example_config_state
           (VStr "cfg.yaml") FileNotFoundError eq_refl eq_refl).
  left. reflexivity.
Defined.

Lemma config_document_not_mapping_witness :
  (run (example_yaml_env VNone) example_config_state).1 = Raise TypeError /\
  events (example_yaml_env VNone) example_config_state
  = [BeginTaskRun; OpenFile (VStr "cfg.yaml")] /\
  dirs (run (example_yaml_env VNone) example_config_state).2
  = dirs example_config_state /\
  model (run (example_yaml_env VNone) example_config_state).2
  = model example_config_state.
Proof.
  apply (config_document_not_mapping (example_yaml_env VNone)
           example_config_state (VStr "cfg.yaml") "text" VNone
           eq_refl eq_refl eq_refl eq_refl).
  discriminate.
Defined.

Lemma model_construction_fails_witness :
  (run example_failing_yolo_env example_state).1
  = Raise (LibraryError "RuntimeError") /\
  (forall p, Makedirs p ∉ events example_failing_yolo_env example_state) /\
  (forall kw, Train kw ∉ events example_failing_yolo_env example_state) /\
  dirs (run example_failing_yolo_env example_state).2 = dirs example_state /\
  model (run example_failing_yolo_env example_state).2
  = model example_state /\
  model_name_file (run example_failing_yolo_env example_state).2
  = VStr "yolov8m-cls.pt".
Proof.
  apply (model_construction_fails example_failing_yolo_env example_state
           (VStr "yolov8m-cls.pt") (LibraryError "RuntimeError")).
  - vm_compute. repeat constructor.
  - reflexivity.
Defined.

Lemma config_keys_must_be_strings_witness :
  (run (example_yaml_env (VDict example_bad_doc)) example_config_state).1
  = Raise TypeError /\
  (forall kw, Train kw ∉ events (example_yaml_env (VDict example_bad_doc))
                                example_config_state) /\
  output_dir "/plugins/train/runs/"
             (now (example_yaml_env (VDict example_bad_doc)))
    ∈ dirs (run (example_yaml_env (VDict example_bad_doc))
                example_config_state).2.
Proof.
  apply (config_keys_must_be_strings
           (example_yaml_env (VDict example_bad_doc)) example_config_state
           (VStr "cfg.yaml") "text" example_bad_doc (VInt 1) (VStr "one")
           (VStr "yolov8n-cls.pt") "/plugins/train/runs/" example_now_valid
           eq_refl eq_refl eq_refl eq_refl).
  - unfold example_bad_doc. repeat constructor.
  - discriminate.
  - reflexivity.
  - reflexivity.
  - reflexivity.
  - vm_compute. discriminate.
  - reflexivity.
  - reflexivity.
Defined.

Lemma missing_configuration_entry_witness :
  (run example_env (example_state_without "epochs")).1 <> Ok tt /\
  (forall kw, Train kw ∉ events example_env (example_state_without "epochs")).
Proof.
  apply (missing_configuration_entry example_env
           (example_state_without "epochs") (VStr "") "epochs"
           eq_refl eq_refl).
  - unfold default_mode_keys. repeat constructor.
  - reflexivity.
Defined.

Lemma missing_config_file_entry_witness :
  (run example_env (example_state_without "config_file")).1
  = Raise (KeyError "config_file") /\
  events example_env (example_state_without "config_file") = [BeginTaskRun] /\
  dirs (run example_env (example_state_without "config_file")).2
  = dirs (example_state_without "config_file").
Proof.
  apply (missing_config_file_entry example_env
           (example_state_without "config_file")).
  reflexivity.
Defined.

Lemma output_folder_must_be_a_path_witness :
  ((run example_env (example_state_with "output_folder" (VStr ""))).1
   = Raise FileNotFoundError /\
   dirs (run example_env (example_state_with "output_folder" (VStr ""))).2
   = dirs (example_state_with "output_folder" (VStr "")) /\
   (forall kw, Train kw ∉ events example_env
                 (example_state_with "output_folder" (VStr "")))) /\
  ((run example_env (example_state_with "output_folder" VNone)).1
   = Raise TypeError /\
   dirs (run example_env (example_state_with "output_folder" VNone)).2
   = dirs (example_state_with "output_folder" VNone) /\
   (forall kw, Train kw ∉ events example_env
                 (example_state_with "output_folder" VNone))).
Proof.
  split.
  - apply (output_folder_must_be_a_path example_env
             (example_state_with "output_folder" (VStr "")) (VStr "")).
    + vm_compute. repeat constructor.
    + reflexivity.
    + intros out [= <-]. reflexivity.
  - apply (output_folder_must_be_a_path example_env
             (example_state_with "output_folder" VNone) VNone).
    + vm_compute. repeat constructor.
    + reflexivity.
    + intros out [=].
Defined.

Lemma run_default_succeeds_witness :
  (run example_env example_state).1 = Ok tt /\
  events example_env example_state
  = [BeginTaskRun; NewYOLO (VStr ("yolov8m-cls" ++ ".pt"));
     AddCallback "on_fit_epoch_end"; Makedirs (VStr "/plugins/train/runs/");
     Makedirs (VStr (PosixPath.join "/plugins/train/runs/"
                       (experiment_name (now example_env))));
     Train
       [("data", input_path example_state); ("epochs", VInt 100);
        ("imgsz", VInt 640); ("batch", VInt 8); ("workers", VInt 0);
        ("optimizer", VStr "auto"); ("momentum", VFloat 0.937%float);
        ("weight_decay", VFloat 0.0005%float); ("lr0", VFloat 0.01%float);
        ("lrf", VFloat 0.01%float); ("pretrained", VBool true);
        ("device", VDevice (if cuda_is_available example_env then "cuda"
                            else "cpu"));
        ("project", VStr (PosixPath.join "/plugins/train/runs/"
                            (experiment_name (now example_env))))];
     EmitStepProgress; EndTaskRun] /\
  model (run example_env example_state).2 = VStr ("yolov8m-cls" ++ ".pt") /\
  dirs (run example_env example_state).2
  = {[ output_dir "/plugins/train/runs/" (now example_env) ]}
      ∪ (list_to_set (ancestors (PosixPath.components "/plugins/train/runs/"))
           ∪ dirs example_state).
Proof.
  apply (run_default_succeeds example_env example_state (VStr "")
           "yolov8m-cls" "/plugins/train/runs/" (VInt 100) (VInt 640)
           (VInt 8) (VInt 0) (VStr "auto") (VFloat 0.937%float)
           (VFloat 0.0005%float) (VFloat 0.01%float) (VFloat 0.01%float)
           example_now_valid);
    try reflexivity.
  vm_compute. discriminate.
Defined.

Lemma run_config_succeeds_witness :
  (run (example_yaml_env (VDict example_doc)) example_config_state).1
  = Ok tt /\
  events (example_yaml_env (VDict example_doc)) example_config_state
  = [BeginTaskRun; OpenFile (VStr "cfg.yaml");
     NewYOLO (VStr "yolov8n-cls.pt"); AddCallback "on_fit_epoch_end";
     Makedirs (VStr "/plugins/train/runs/");
     Makedirs (VStr (PosixPath.join "/plugins/train/runs/"
                       (experiment_name
                          (now (example_yaml_env (VDict example_doc))))));
     Train example_doc_kwargs; EmitStepProgress; EndTaskRun] /\
  model (run (example_yaml_env (VDict example_doc)) example_config_state).2
  = VStr "yolov8n-cls.pt" /\
  dirs (run (example_yaml_env (VDict example_doc)) example_config_state).2
  = {[ output_dir "/plugins/train/runs/"
                  (now (example_yaml_env (VDict example_doc))) ]}
      ∪ (list_to_set (ancestors (PosixPath.components "/plugins/train/runs/"))
           ∪ dirs example_config_state).
Proof.
  apply (run_config_succeeds (example_yaml_env (VDict example_doc))
           example_config_state (VStr "cfg.yaml") "text" example_doc
           (VStr "yolov8n-cls.pt") example_doc_kwargs "/plugins/train/runs/"
           example_now_valid);
    try reflexivity.
  vm_compute. discriminate.
Defined.

Lemma run_reads_only_witness :
  run example_env
      (with_cfg (<["dataset_folder" := VStr "/elsewhere"]>
                   (<["dataset_split_ratio" := VFloat 0.5%float]>
                      (cfg example_state)))
         example_state)
  = ((run example_env example_state).1,
     with_cfg (<["dataset_folder" := VStr "/elsewhere"]>
                 (<["dataset_split_ratio" := VFloat 0.5%float]>
                    (cfg example_state)))
       (run example_env example_state).2).
Proof.
  apply (run_reads_only example_env example_state).
  intros k Hk. unfold run_keys, default_mode_keys in Hk.
  apply list_elem_of_In in Hk. simpl in Hk.
  repeat (destruct Hk as [<-|Hk]; [reflexivity|]). destruct Hk.
Defined.

Lemma set_values_other_entries_witness :
  (set_values example_interp2 stringly_map
     (<["my_note" := VStr "kept"]> (Param_init example_interp2))).2
    !! "my_note"
  = <["my_note" := VStr "kept"]> (Param_init example_interp2) !! "my_note".
Proof.
  apply (set_values_other_entries example_interp2 stringly_map
           (<["my_note" := VStr "kept"]> (Param_init example_interp2))
           "my_note").
  apply (bool_decide_unpack _). vm_compute. reflexivity.
Defined.

Lemma set_values_reads_only_witness :
  set_values example_interp2 (<["unknown_option" := VInt 7]> stringly_map) ∅
  = set_values example_interp2 stringly_map ∅.
Proof.
  apply (set_values_reads_only example_interp2 stringly_map
           (<["unknown_option" := VInt 7]> stringly_map) ∅).
  intros k Hk. apply lookup_insert_ne. intros <-.
  vm_compute in Hk. elem_cases Hk.
Defined.

Lemma set_values_idempotent_witness :
  set_values example_interp2 stringly_map
    (set_values example_interp2 stringly_map ∅).2
  = (Ok tt, (set_values example_interp2 stringly_map ∅).2).
Proof.
  apply (set_values_idempotent example_interp2 stringly_map ∅).
  vm_compute. reflexivity.
Defined.

Lemma set_values_typed_input_witness :
  (set_values example_interp typed_map ∅).1 = Ok tt /\
  (forall k, k ∈ assignments.*1 ->
             (set_values example_interp typed_map ∅).2 !! k = typed_map !! k).
Proof.
  apply (set_values_typed_input example_interp typed_map ∅).
  intros k c Hin. unfold assignments in Hin.
  apply list_elem_of_In in Hin. simpl in Hin.
  repeat (destruct Hin as [[= <- <-]|Hin];
          [eexists; split; [reflexivity|]; (by left) + (by right)|]).
  destruct Hin.
Defined.

Lemma set_values_fixed_point_witness :
  set_values example_interp2 (set_values example_interp2 stringly_map ∅).2
    (set_values example_interp2 stringly_map ∅).2
  = (Ok tt, (set_values example_interp2 stringly_map ∅).2).
Proof.
  apply (set_values_fixed_point example_interp2 stringly_map ∅).
  vm_compute. reflexivity.
Defined.

Lemma set_values_errors_witness :
  exists k c, (k, c) ∈ assignments /\
    ((<["epochs" := VStr "many"]> stringly_map !! k = None /\
      ValueError = KeyError k) \/
     (exists v, <["epochs" := VStr "many"]> stringly_map !! k = Some v /\
        convert example_interp2 c v = Raise ValueError /\
        ((c = CStr /\
          ((exists z, v = VInt z /\ ValueError = ValueError /\
                      Py.too_many_digits (int_max_str_digits example_interp2)
                                         (Py.decimal_digits z) = true) \/
           ((type_of v = TFloat \/ type_of v = TList \/ type_of v = TDict) /\
            repr example_interp2 v = Raise ValueError))) \/
         ((c = CInt \/ c = CFloat) /\
          (ValueError = TypeError \/ ValueError = ValueError \/
           ValueError = OverflowError))))).
Proof.
  apply (set_values_errors example_interp2
           (<["epochs" := VStr "many"]> stringly_map) ∅ ValueError).
  vm_compute. reflexivity.
Defined.

Lemma configured_task_runs_witness :
  (run example_env
       (with_cfg (set_values example_interp2 stringly_map ∅).2
          example_state)).1 = Ok tt /\
  exists kw,
    Train kw ∈ events example_env
                 (with_cfg (set_values example_interp2 stringly_map ∅).2
                    example_state) /\
    kw.*1 = mapped_fields /\
    type_of <$> kw.*2
    = [type_of (input_path
                  (with_cfg (set_values example_interp2 stringly_map ∅).2
                     example_state));
       TInt; TInt; TInt; TInt; TStr; TFloat; TFloat; TFloat; TFloat; TBool;
       TDevice; TStr].
Proof.
  apply (configured_task_runs example_interp2 example_env stringly_map ∅
           (with_cfg (set_values example_interp2 stringly_map ∅).2
              example_state)
           (VStr "") "/data/runs").
  - vm_compute. reflexivity.
  - reflexivity.
  - reflexivity.
  - reflexivity.
  - vm_compute. discriminate.
  - exact example_now_valid.
  - reflexivity.
  - reflexivity.
  - reflexivity.
Defined.

Lemma default_task_runs_witness :
  (create example_interp get_process_factory None ∅).1
  = "train_yolo_v8_classification" /\
  (run example_env
       (with_input_path (VStr "/data/flowers")
          (create example_interp get_process_factory None ∅).2)).1 = Ok tt /\
  events example_env
    (with_input_path (VStr "/data/flowers")
       (create example_interp get_process_factory None ∅).2)
  = [BeginTaskRun; NewYOLO (VStr "yolov8m-cls.pt");
     AddCallback "on_fit_epoch_end";
     Makedirs (VStr (module_dir example_interp ++ "/runs/"));
     Makedirs (VStr (PosixPath.join (module_dir example_interp ++ "/runs/")
                       (experiment_name (now example_env))));
     Train (default_kwargs example_interp example_env (VStr "/data/flowers"));
     EmitStepProgress; EndTaskRun] /\
  output_dir (module_dir example_interp ++ "/runs/") (now example_env)
    ∈ dirs (run example_env
              (with_input_path (VStr "/data/flowers")
                 (create example_interp get_process_factory None ∅).2)).2.
Proof.
  apply (default_task_runs example_interp example_env ∅
           (VStr "/data/flowers") example_now_valid);
    reflexivity.
Defined.
